(** * The message model of ehforwarderbot/message.py

    A shallow embedding of the classes of [message.py] over a small model of
    the Python object store, and the properties of their constructors.

    Python values are either immutable (None, booleans, integers, strings,
    tuples, enumeration members, built-in functions) or references into a
    store of mutable objects (lists, dicts, class instances).  A constructor
    is a computation over that store which either returns or raises. *)

From Stdlib Require Import Ascii.
From stdpp Require Import gmap strings list.

(** ** Enumerations of [constants.py] *)

(** Modelled from the spec: [constants.py] is imported with
    [from .constants import *] and supplies the chat-type and message-type
    enumerations, "closed sets of symbolic tags".  [message.py] names the
    members [ChatType.User], [ChatType.Group] and [MsgType.Text]; every
    other member is kept by its tag. *)
Inductive ChatType :=
| User
| Group
| OtherChatType (tag : string).

(** Modelled from the spec: the message-type enumeration of
    [constants.py], with the member [message.py] names. *)
Inductive MsgType :=
| Text
| OtherMsgType (tag : string).

(** ** Classes *)

(** The classes of [message.py], and [EFBChat] of [chat.py], which the
    module only imports: a chat is an opaque value whose class is not a
    subclass of any class defined here. *)
Inductive pyclass :=
| EFBMsg
| EFBMsgAttribute
| EFBMsgLinkAttribute
| EFBMsgLocationAttribute
| EFBMsgCommand
| EFBMsgCommandAttribute
| EFBMsgStatusAttribute
| EFBMsgTarget
| EFBMsgTargetMessage
| EFBMsgTargetSubstitution
| EFBChat.

Definition pyclass_eqb (c d : pyclass) : bool :=
  match c, d with
  | EFBMsg, EFBMsg
  | EFBMsgAttribute, EFBMsgAttribute
  | EFBMsgLinkAttribute, EFBMsgLinkAttribute
  | EFBMsgLocationAttribute, EFBMsgLocationAttribute
  | EFBMsgCommand, EFBMsgCommand
  | EFBMsgCommandAttribute, EFBMsgCommandAttribute
  | EFBMsgStatusAttribute, EFBMsgStatusAttribute
  | EFBMsgTarget, EFBMsgTarget
  | EFBMsgTargetMessage, EFBMsgTargetMessage
  | EFBMsgTargetSubstitution, EFBMsgTargetSubstitution
  | EFBChat, EFBChat => true
  | _, _ => false
  end.

(** The base class written in the [class] statement ([ABC] and [object]
    are left out). *)
Definition base (c : pyclass) : option pyclass :=
  match c with
  | EFBMsgLinkAttribute | EFBMsgLocationAttribute
  | EFBMsgCommandAttribute | EFBMsgStatusAttribute => Some EFBMsgAttribute
  | EFBMsgTargetMessage | EFBMsgTargetSubstitution => Some EFBMsgTarget
  | _ => None
  end.

Definition issubclass (c d : pyclass) : bool :=
  pyclass_eqb c d ||
  match base c with
  | Some b => pyclass_eqb b d
  | None => false
  end.

(** A class is abstract when it derives from [ABC] and has a method marked
    [@abstractmethod] that it does not override: the two bases, whose
    [__init__] is abstract.  Every concrete subclass defines its own
    [__init__]. *)
Definition is_abstract (c : pyclass) : bool :=
  match c with
  | EFBMsgAttribute | EFBMsgTarget => true
  | _ => false
  end.

(** ** Values, objects and the store *)

(** Addresses are positions in the store. *)
Abbreviation addr := nat (only parsing).

#[warnings="-register-all"]
Inductive pyval :=
| VNone
| VBool (b : bool)
| VInt (n : Z)
| VStr (s : string)
| VTuple (items : list pyval)
| VChatType (t : ChatType)
| VMsgType (t : MsgType)
| VBuiltin (name : string)
| VRef (a : addr).

(** Mutable objects.  A dict keeps its entries in insertion order, which is
    the order a [for] loop visits its keys in. *)
Inductive pyobj :=
| OList (items : list pyval)
| ODict (entries : list (pyval * pyval))
| OInst (cls : pyclass) (attrs : gmap string pyval).

Abbreviation heap := (list pyobj) (only parsing).

(** ** Exceptions and the construction monad *)

Inductive exn :=
| TypeError (msg : string)
| ValueError (msg : string)
| NotImplementedError (msg : string)
| AttributeError (attr : string)
| KeyError.

Inductive result (A : Type) :=
| Ok (a : A)
| Raise (e : exn).

Arguments Ok {A} a.
Arguments Raise {A} e.

Definition M (A : Type) : Type := heap -> result (A * heap).

Definition ret {A} (a : A) : M A := fun h => Ok (a, h).

Definition raise {A} (e : exn) : M A := fun _ => Raise e.

Definition bind {A B} (m : M A) (k : A -> M B) : M B :=
  fun h =>
    match m h with
    | Ok (a, h') => k a h'
    | Raise e => Raise e
    end.

Declare Scope py_scope.
Delimit Scope py_scope with py.

Notation "x <- m ;; k" := (bind m (fun x => k))
  (at level 100, m at next level, right associativity) : py_scope.
Notation "m ;;; k" := (bind m (fun _ => k))
  (at level 100, right associativity) : py_scope.

Local Open Scope py_scope.

Definition get_heap : M heap := fun h => Ok (h, h).

(** A new object lives at the first unused address. *)
Definition alloc (o : pyobj) : M addr := fun h => Ok (length h, h ++ [o]).

(** ** Primitive operations of the interpreter *)

(** The value of an [int] instance; [bool] is a subclass of [int]. *)
Definition int_value (v : pyval) : option Z :=
  match v with
  | VInt n => Some n
  | VBool true => Some 1%Z
  | VBool false => Some 0%Z
  | _ => None
  end.

Definition isinstance_str (v : pyval) : bool :=
  match v with VStr _ => true | _ => false end.

Definition isinstance_list (h : heap) (v : pyval) : bool :=
  match v with
  | VRef a => match h !! a with Some (OList _) => true | _ => false end
  | _ => false
  end.

Definition isinstance_dict (h : heap) (v : pyval) : bool :=
  match v with
  | VRef a => match h !! a with Some (ODict _) => true | _ => false end
  | _ => false
  end.

(** [isinstance(v, cls)] for a class of the module. *)
Definition isinstance (h : heap) (v : pyval) (cls : pyclass) : bool :=
  match v with
  | VRef a =>
      match h !! a with
      | Some (OInst c _) => issubclass c cls
      | _ => false
      end
  | _ => false
  end.

Definition is_None (v : pyval) : bool :=
  match v with VNone => true | _ => false end.

(** [x == y].  Numbers compare by value, strings and tuples by content,
    enumeration members and built-ins by identity.  References compare by
    identity, which is [object.__eq__], the comparison of the instances of
    every class here; a list or a dict is unhashable, so it is never a
    dictionary key. *)
Fixpoint py_eqb (x y : pyval) : bool :=
  match x, y with
  | VNone, VNone => true
  | (VBool _ | VInt _), (VBool _ | VInt _) =>
      match int_value x, int_value y with
      | Some m, Some n => (m =? n)%Z
      | _, _ => false
      end
  | VStr s, VStr t => bool_decide (s = t)
  | VTuple xs, VTuple ys =>
      (fix all2 (xs ys : list pyval) : bool :=
         match xs, ys with
         | [], [] => true
         | a :: xs', b :: ys' => py_eqb a b && all2 xs' ys'
         | _, _ => false
         end) xs ys
  | VChatType User, VChatType User => true
  | VChatType Group, VChatType Group => true
  | VChatType (OtherChatType s), VChatType (OtherChatType t) => bool_decide (s = t)
  | VMsgType Text, VMsgType Text => true
  | VMsgType (OtherMsgType s), VMsgType (OtherMsgType t) => bool_decide (s = t)
  | VBuiltin s, VBuiltin t => bool_decide (s = t)
  | VRef a, VRef b => bool_decide (a = b)
  | _, _ => false
  end.

(** Truth value of an object, as [and] and [if] test it. *)
Definition truthy (h : heap) (v : pyval) : bool :=
  match v with
  | VNone => false
  | VBool b => b
  | VInt n => negb (n =? 0)%Z
  | VStr s => negb (bool_decide (s = ""%string))
  | VTuple items => negb (bool_decide (items = []))
  | VChatType _ | VMsgType _ | VBuiltin _ => true
  | VRef a =>
      match h !! a with
      | Some (OList []) | Some (ODict []) => false
      | _ => true
      end
  end.

(** [obj.name = v] on an instance. *)
Definition setattr (self : addr) (name : string) (v : pyval) : M unit :=
  fun h =>
    match h !! self with
    | Some (OInst cls attrs) =>
        Ok (tt, <[self := OInst cls (<[name := v]> attrs)]> h)
    | _ => Raise (AttributeError name)
    end.

(** [obj.name] read from the instance dictionary.  A value that is not an
    instance of a class has none of the attributes read in this module.
    The defaults some classes declare in their body are not modelled: each
    is assigned by the [__init__] of its class before it can be read, and
    [EFBMsg] declares none. *)
Definition getattr (v : pyval) (name : string) : M pyval :=
  fun h =>
    match v with
    | VRef a =>
        match h !! a with
        | Some (OInst _ attrs) =>
            match attrs !! name with
            | Some x => Ok (x, h)
            | None => Raise (AttributeError name)
            end
        | _ => Raise (AttributeError name)
        end
    | _ => Raise (AttributeError name)
    end.

(** [list()] and [dict()] *)
Definition new_list : M pyval := a <- alloc (OList []) ;; ret (VRef a).
Definition new_dict : M pyval := a <- alloc (ODict []) ;; ret (VRef a).

(** [l.copy()] and [d.copy()]: a new container with the same items. *)
Definition list_copy (v : pyval) : M pyval :=
  fun h =>
    match v with
    | VRef a =>
        match h !! a with
        | Some (OList items) => Ok (VRef (length h), h ++ [OList items])
        | _ => Raise (AttributeError "copy")
        end
    | _ => Raise (AttributeError "copy")
    end.

Definition dict_copy (v : pyval) : M pyval :=
  fun h =>
    match v with
    | VRef a =>
        match h !! a with
        | Some (ODict entries) => Ok (VRef (length h), h ++ [ODict entries])
        | _ => Raise (AttributeError "copy")
        end
    | _ => Raise (AttributeError "copy")
    end.

(** The items of a list and the entries of a dict, for [len], [all] and
    iteration. *)
Definition list_items (h : heap) (v : pyval) : list pyval :=
  match v with
  | VRef a => match h !! a with Some (OList items) => items | _ => [] end
  | _ => []
  end.

Definition dict_entries (h : heap) (v : pyval) : list (pyval * pyval) :=
  match v with
  | VRef a => match h !! a with Some (ODict entries) => entries | _ => [] end
  | _ => []
  end.

(** [d[k]]: the value of the first entry whose key equals [k]. *)
Fixpoint assoc (k : pyval) (entries : list (pyval * pyval)) : option pyval :=
  match entries with
  | [] => None
  | (k', v) :: rest => if py_eqb k' k then Some v else assoc k rest
  end.

Definition dict_getitem (d k : pyval) : M pyval :=
  fun h =>
    match assoc k (dict_entries h d) with
    | Some v => Ok (v, h)
    | None => Raise KeyError
    end.

(** The name of a class, as an error message prints it. *)
Definition class_name (c : pyclass) : string :=
  match c with
  | EFBMsg => "EFBMsg"
  | EFBMsgAttribute => "EFBMsgAttribute"
  | EFBMsgLinkAttribute => "EFBMsgLinkAttribute"
  | EFBMsgLocationAttribute => "EFBMsgLocationAttribute"
  | EFBMsgCommand => "EFBMsgCommand"
  | EFBMsgCommandAttribute => "EFBMsgCommandAttribute"
  | EFBMsgStatusAttribute => "EFBMsgStatusAttribute"
  | EFBMsgTarget => "EFBMsgTarget"
  | EFBMsgTargetMessage => "EFBMsgTargetMessage"
  | EFBMsgTargetSubstitution => "EFBMsgTargetSubstitution"
  | EFBChat => "EFBChat"
  end.

(** Calling a class: Python refuses, with a [TypeError], to create an
    instance of a class with an abstract method, before [__init__] is
    entered; otherwise a new instance is created and initialised. *)
Definition instantiate (cls : pyclass) (init : addr -> M unit) : M pyval :=
  if is_abstract cls
  then raise (TypeError
    (String.append "Can't instantiate abstract class "
       (String.append (class_name cls) " with abstract method __init__")))
  else
    self <- alloc (OInst cls ∅) ;;
    init self ;;;
    ret (VRef self).

(** [template % arg].  A tuple on the right-hand side is the tuple of
    arguments, one for each conversion of the template; any other value is
    the single argument.  Python raises [TypeError] when the two numbers
    differ.  The text of the result is kept as the template: the arguments
    are not rendered. *)
Fixpoint conversions (template : string) : nat :=
  match template with
  | EmptyString => 0
  | String c rest =>
      (if bool_decide (c = "%"%char) then 1 else 0) + conversions rest
  end.

Definition percent (template : string) (arg : pyval) : M string :=
  let given :=
    match arg with
    | VTuple items => length items
    | _ => 1
    end in
  if given =? conversions template then ret template
  else if given <? conversions template
  then raise (TypeError "not enough arguments for format string")
  else raise (TypeError "not all arguments converted during string formatting").

(** The name [callable] in the body of a method of this module.  It is
    neither a parameter nor a local (the parameter of
    [EFBMsgCommand.__init__] is [callable_name]), and the class attribute
    of that name is not in scope inside a method: it is the built-in
    function. *)
Definition callable : pyval := VBuiltin "callable".

(** ** The classes of [message.py] *)

Module EFBMsg.

Definition __init__ (self : addr) : M unit :=
  setattr self "source" (VChatType User) ;;;
  setattr self "type" (VMsgType Text) ;;;
  setattr self "member" VNone ;;;
  setattr self "origin" VNone ;;;
  setattr self "destination" VNone ;;;
  setattr self "target" VNone ;;;
  setattr self "uid" VNone ;;;
  setattr self "text" (VStr "") ;;;
  setattr self "url" VNone ;;;
  setattr self "path" VNone ;;;
  setattr self "file" VNone ;;;
  setattr self "mime" VNone ;;;
  setattr self "filename" VNone ;;;
  setattr self "attributes" VNone ;;;
  setattr self "is_system" (VBool false) ;;;
  setattr self "edit" (VBool false) ;;;
  d <- new_dict ;;
  setattr self "vendor_specific" d.

(** [EFBMsg()] *)
Definition new : M pyval := instantiate EFBMsg __init__.

End EFBMsg.

Module EFBMsgAttribute.

Definition __init__ (self : addr) : M unit :=
  raise (NotImplementedError "Do not use the abstract class EFBMsgAttribute").

(** [EFBMsgAttribute(...)] with any arguments: [__init__] takes none besides [self]. *)
Definition new (args : list pyval) : M pyval :=
  instantiate EFBMsgAttribute
    (fun self =>
       match args with
       | [] => __init__ self
       | _ => raise (TypeError "__init__() takes 1 positional argument")
       end).

End EFBMsgAttribute.

Module EFBMsgLinkAttribute.

(** The parameters are in the order of the signature; each defaults to
    [None]. *)
Definition __init__ (self : addr) (title description image url : pyval)
  : M unit :=
  if is_None title || is_None url
  then raise (ValueError "Title and URL is required.")
  else
    setattr self "title" title ;;;
    setattr self "description" description ;;;
    setattr self "image" image ;;;
    setattr self "url" url.

Definition new (title description image url : pyval) : M pyval :=
  instantiate EFBMsgLinkAttribute
    (fun self => __init__ self title description image url).

End EFBMsgLinkAttribute.

Module EFBMsgLocationAttribute.

Definition __init__ (self : addr) (latitude longitude : pyval) : M unit :=
  setattr self "latitude" latitude ;;;
  setattr self "longitude" longitude.

Definition new (latitude longitude : pyval) : M pyval :=
  instantiate EFBMsgLocationAttribute
    (fun self => __init__ self latitude longitude).

End EFBMsgLocationAttribute.

Module EFBMsgCommand.

(** [args] and [kwargs] default to [None]. *)
Definition __init__ (self : addr) (name callable_name args kwargs : pyval)
  : M unit :=
  args <- (if is_None args then new_list else ret args) ;;
  kwargs <- (if is_None kwargs then new_dict else ret kwargs) ;;
  h <- get_heap ;;
  if negb (isinstance_str name)
  then raise (TypeError "name must be a string.")
  else if negb (isinstance_str callable_name)
  then raise (TypeError "callable must be a string.")
  else if negb (isinstance_list h args)
  then raise (TypeError "args must be a list.")
  else if negb (isinstance_dict h kwargs)
  then raise (TypeError "kwargs must be a dict.")
  else
    setattr self "name" name ;;;
    setattr self "callable" callable ;;;
    a <- list_copy args ;;
    setattr self "args" a ;;;
    k <- dict_copy kwargs ;;
    setattr self "kwargs" k.

Definition new (name callable_name args kwargs : pyval) : M pyval :=
  instantiate EFBMsgCommand
    (fun self => __init__ self name callable_name args kwargs).

End EFBMsgCommand.

Module EFBMsgCommandAttribute.

Definition __init__ (self : addr) (commands : pyval) : M unit :=
  h <- get_heap ;;
  if negb (isinstance_list h commands
           && (0 <? length (list_items h commands))
           && forallb (fun i => isinstance h i EFBMsgCommand)
                (list_items h commands))
  then raise (ValueError
    "There must be one or more commands, and all of them must be in type EFBMsgCommand.")
  else
    c <- list_copy commands ;;
    setattr self "commands" c.

Definition new (commands : pyval) : M pyval :=
  instantiate EFBMsgCommandAttribute (fun self => __init__ self commands).

End EFBMsgCommandAttribute.

Module EFBMsgStatusAttribute.

Definition TYPING : pyval := VStr "TYPING".
Definition UPLOADING_FILE : pyval := VStr "UPLOADING_FILE".
Definition UPLOADING_IMAGE : pyval := VStr "UPLOADING_IMAGE".
Definition UPLOADING_AUDIO : pyval := VStr "UPLOADING_AUDIO".
Definition UPLOADING_VIDEO : pyval := VStr "UPLOADING_VIDEO".

Definition __init__ (self : addr) (status_type : pyval) : M unit :=
  setattr self "status_type" status_type.

Definition new (status_type : pyval) : M pyval :=
  instantiate EFBMsgStatusAttribute (fun self => __init__ self status_type).

End EFBMsgStatusAttribute.

Module EFBMsgTarget.

Definition __init__ (self : addr) : M unit :=
  raise (NotImplementedError "Do not use the abstract class EFBMsgTarget").

(** [EFBMsgTarget(...)] with any arguments: [__init__] takes none besides [self]. *)
Definition new (args : list pyval) : M pyval :=
  instantiate EFBMsgTarget
    (fun self =>
       match args with
       | [] => __init__ self
       | _ => raise (TypeError "__init__() takes 1 positional argument")
       end).

End EFBMsgTarget.

Module EFBMsgTargetMessage.

Definition __init__ (self : addr) (message : pyval) : M unit :=
  setattr self "message" message.

Definition new (message : pyval) : M pyval :=
  instantiate EFBMsgTargetMessage (fun self => __init__ self message).

End EFBMsgTargetMessage.

Module EFBMsgTargetSubstitution.

(** The test on a key [i] of the mapping, with the [not ... or not ...]
    chain read positively: [isinstance(i, tuple)], [len(i) == 2],
    [isinstance(i[0], int)], [isinstance(i[1], int)] and [i[0] < i[1]].
    The chain short-circuits, so no part is evaluated on a key that failed
    an earlier part.  An instance of [int] is one that has an [int_value]. *)
Definition key_ok (i : pyval) : bool :=
  match i with
  | VTuple items =>
      (length items =? 2) &&
      match items !! 0, items !! 1 with
      | Some a, Some b =>
          match int_value a, int_value b with
          | Some x, Some y => (x <? y)%Z
          | _, _ => false
          end
      | _, _ => false
      end
  | _ => false
  end.

(** The body of [for i in substitutions], over the keys still to visit. *)
Fixpoint check (substitutions : pyval) (keys : list pyval) : M unit :=
  match keys with
  | [] => ret tt
  | i :: rest =>
      if negb (key_ok i)
      then
        msg <- percent
          "Substitution %s's index must be a tuple of 2 integers where the first one is lessthan the second one."
          i ;;
        raise (TypeError msg)
      else
        v <- dict_getitem substitutions i ;;
        h <- get_heap ;;
        if negb (isinstance h v EFBMsg)
        then
          msg <- percent "Substitution %s is not a message object." i ;;
          raise (TypeError msg)
        else
          v <- dict_getitem substitutions i ;;
          is_chat <- getattr v "is_chat" ;;
          is_group <-
            (if truthy h is_chat
             then
               v <- dict_getitem substitutions i ;;
               chat_type <- getattr v "chat_type" ;;
               ret (py_eqb chat_type (VChatType Group))
             else ret false) ;;
          if is_group
          then
            msg <- percent "Substitution %s is not a user." i ;;
            raise (ValueError msg)
          else check substitutions rest
  end.

Definition __init__ (self : addr) (substitutions : pyval) : M unit :=
  h <- get_heap ;;
  if negb (isinstance_dict h substitutions)
  then raise (TypeError "Substitutions must be a dict.")
  else
    check substitutions (map fst (dict_entries h substitutions)) ;;;
    setattr self "substitutions" substitutions.

Definition new (substitutions : pyval) : M pyval :=
  instantiate EFBMsgTargetSubstitution
    (fun self => __init__ self substitutions).

End EFBMsgTargetSubstitution.

(** ** Changes made by the owner of a container *)

(** An in-place change of the list at [a] ([append], [insert], item
    assignment, [del], [clear], [sort], ...): the items are replaced by a
    function of them, at the same address. *)
Definition list_update (a : addr) (f : list pyval -> list pyval) : M unit :=
  fun h =>
    match h !! a with
    | Some (OList items) => Ok (tt, <[a := OList (f items)]> h)
    | _ => Raise (AttributeError "list")
    end.

(** The same for the dict at [a] (item assignment, [del], [update],
    [clear], ...). *)
Definition dict_update (a : addr)
  (f : list (pyval * pyval) -> list (pyval * pyval)) : M unit :=
  fun h =>
    match h !! a with
    | Some (ODict entries) => Ok (tt, <[a := ODict (f entries)]> h)
    | _ => Raise (AttributeError "dict")
    end.

(** ** The vocabulary of the specification *)

(** The kinds of error in the taxonomy of the specification, with
    [OtherError] for an exception outside it, and the kind each exception
    of the model belongs to.  The instantiation error is the
    [NotImplementedError] the [__init__] of an abstract base raises. *)
Inductive error_kind :=
| InstantiationError
| ValidationError
| TypeErrorKind
| OtherError.

Definition kind_of (e : exn) : error_kind :=
  match e with
  | NotImplementedError _ => InstantiationError
  | ValueError _ => ValidationError
  | TypeError _ => TypeErrorKind
  | AttributeError _ | KeyError => OtherError
  end.

(** The invariant the specification states for an entry of a substitution
    target: [0 <= start < end <= len(text)]. *)
Definition in_range (text : string) (key : pyval) : bool :=
  match key with
  | VTuple [a; b] =>
      match int_value a, int_value b with
      | Some x, Some y =>
          (0 <=? x)%Z && (x <? y)%Z && (y <=? Z.of_nat (String.length text))%Z
      | _, _ => false
      end
  | _ => false
  end.

(** The attributes [EFBMsg.__init__] assigns, in the order of its
    assignments, over the attributes [attrs] the instance already has;
    [d] is the new [vendor_specific] dict. *)
Definition EFBMsg_defaults (d : pyval) (attrs : gmap string pyval)
  : gmap string pyval :=
  <["vendor_specific" := d]> (
  <["edit" := VBool false]> (
  <["is_system" := VBool false]> (
  <["attributes" := VNone]> (
  <["filename" := VNone]> (
  <["mime" := VNone]> (
  <["file" := VNone]> (
  <["path" := VNone]> (
  <["url" := VNone]> (
  <["text" := VStr ""]> (
  <["uid" := VNone]> (
  <["target" := VNone]> (
  <["destination" := VNone]> (
  <["origin" := VNone]> (
  <["member" := VNone]> (
  <["type" := VMsgType Text]> (
  <["source" := VChatType User]> attrs)))))))))))))))).

(** "Present" in the words of the specification: the attribute is set on
    the instance and is not [None]. *)
Definition present (h : heap) (obj : pyval) (name : string) : Prop :=
  exists x, getattr obj name h = Ok (x, h) /\ is_None x = false.

(** The attributes [EFBMsgCommand.__init__] assigns, in the order of its
    assignments; [a] and [k] are the copies of [args] and [kwargs]. *)
Definition EFBMsgCommand_fields (name a k : pyval)
  (attrs : gmap string pyval) : gmap string pyval :=
  <["kwargs" := k]> (
  <["args" := a]> (
  <["callable" := callable]> (
  <["name" := name]> attrs))).

(** ** Callers of [EFBMsgTargetSubstitution] *)

(** [obj.name = v] for a value [obj]. *)
Definition assign_attr (obj : pyval) (name : string) (v : pyval) : M unit :=
  match obj with
  | VRef a => setattr a name v
  | _ => raise (AttributeError name)
  end.

(** [m = EFBMsg(); m.is_chat = is_chat; m.chat_type = chat_type]: a message
    that carries the two attributes the substitution loop reads. *)
Definition message_as_chat (is_chat chat_type : pyval) : M pyval :=
  m <- EFBMsg.new ;;
  assign_attr m "is_chat" is_chat ;;;
  assign_attr m "chat_type" chat_type ;;;
  ret m.

(** Modelled from the spec: a chat object of [chat.py], which the module
    imports; "an opaque, already-validated value".  It is an instance of
    [EFBChat] and is given the two attributes the loop reads. *)
Definition chat (chat_type : ChatType) : M pyval :=
  a <- alloc (OInst EFBChat
                (<["chat_type" := VChatType chat_type]>
                   {["is_chat" := VBool true]})) ;;
  ret (VRef a).

(** The dict display [{(start, end): value}]. *)
Definition dict_of_range (start end_ : Z) (value : pyval) : M pyval :=
  d <- alloc (ODict [(VTuple [VInt start; VInt end_], value)]) ;;
  ret (VRef d).

(** [EFBMsgTargetSubstitution({(start, end): value})], for a [value] made
    by the caller first. *)
Definition substitution_of (value : M pyval) (start end_ : Z) : M pyval :=
  v <- value ;;
  d <- dict_of_range start end_ v ;;
  EFBMsgTargetSubstitution.new d.

(** A message whose target is a substitution with two entries:
    [u] is a message standing for a user chat, and
    [m = EFBMsg(); m.target = EFBMsgTargetSubstitution({(-5, -1): u, (0, 5): u})].
    The text of [m] is the empty string [EFBMsg()] gave it. *)
Definition message_with_target : M pyval :=
  u <- message_as_chat (VBool true) (VChatType User) ;;
  d <- alloc (ODict [(VTuple [VInt (-5); VInt (-1)], u);
                     (VTuple [VInt 0; VInt 5], u)]) ;;
  target <- EFBMsgTargetSubstitution.new (VRef d) ;;
  m <- EFBMsg.new ;;
  assign_attr m "target" target ;;;
  ret m.

(** Computations that never raise [ValueError]. *)
Definition no_ValueError {A} (m : M A) : Prop :=
  forall (h : heap) msg, m h <> Raise (ValueError msg).

(** ** The class calls of the module *)

(** A call of one of the classes of [message.py], with its arguments. *)
Inductive call :=
| Call_EFBMsg
| Call_EFBMsgAttribute (args : list pyval)
| Call_EFBMsgLinkAttribute (title description image url : pyval)
| Call_EFBMsgLocationAttribute (latitude longitude : pyval)
| Call_EFBMsgCommand (name callable_name args kwargs : pyval)
| Call_EFBMsgCommandAttribute (commands : pyval)
| Call_EFBMsgStatusAttribute (status_type : pyval)
| Call_EFBMsgTarget (args : list pyval)
| Call_EFBMsgTargetMessage (message : pyval)
| Call_EFBMsgTargetSubstitution (substitutions : pyval).

Definition class_of (c : call) : pyclass :=
  match c with
  | Call_EFBMsg => EFBMsg
  | Call_EFBMsgAttribute _ => EFBMsgAttribute
  | Call_EFBMsgLinkAttribute _ _ _ _ => EFBMsgLinkAttribute
  | Call_EFBMsgLocationAttribute _ _ => EFBMsgLocationAttribute
  | Call_EFBMsgCommand _ _ _ _ => EFBMsgCommand
  | Call_EFBMsgCommandAttribute _ => EFBMsgCommandAttribute
  | Call_EFBMsgStatusAttribute _ => EFBMsgStatusAttribute
  | Call_EFBMsgTarget _ => EFBMsgTarget
  | Call_EFBMsgTargetMessage _ => EFBMsgTargetMessage
  | Call_EFBMsgTargetSubstitution _ => EFBMsgTargetSubstitution
  end.

Definition run (c : call) : M pyval :=
  match c with
  | Call_EFBMsg => EFBMsg.new
  | Call_EFBMsgAttribute args => EFBMsgAttribute.new args
  | Call_EFBMsgLinkAttribute title description image url =>
      EFBMsgLinkAttribute.new title description image url
  | Call_EFBMsgLocationAttribute latitude longitude =>
      EFBMsgLocationAttribute.new latitude longitude
  | Call_EFBMsgCommand name callable_name args kwargs =>
      EFBMsgCommand.new name callable_name args kwargs
  | Call_EFBMsgCommandAttribute commands => EFBMsgCommandAttribute.new commands
  | Call_EFBMsgStatusAttribute status_type =>
      EFBMsgStatusAttribute.new status_type
  | Call_EFBMsgTarget args => EFBMsgTarget.new args
  | Call_EFBMsgTargetMessage message => EFBMsgTargetMessage.new message
  | Call_EFBMsgTargetSubstitution substitutions =>
      EFBMsgTargetSubstitution.new substitutions
  end.

(** What an initialiser of [self] does to the store at most: every other
    object that was there is as it was, and [self] is still an instance of
    its class. *)
Definition keeps (self : addr) (h h' : heap) : Prop :=
  (forall x o, x <> self -> h !! x = Some o -> h' !! x = Some o) /\
  (forall c attrs,
      h !! self = Some (OInst c attrs) ->
      exists attrs', h' !! self = Some (OInst c attrs')).

Definition keeps_store {A} (self : addr) (m : M A) : Prop :=
  forall (h : heap) x h', m h = Ok (x, h') -> keeps self h h'.

(** ** The entries a substitution target accepts *)

(** The value of [obj.name], when there is one. *)
Definition read_attr (h : heap) (obj : pyval) (name : string)
  : option pyval :=
  match getattr obj name h with
  | Ok (x, _) => Some x
  | Raise _ => None
  end.

(** The entry of key [i] passes the loop of
    [EFBMsgTargetSubstitution.__init__]: the key is a pair of integers in
    increasing order, the value is an [EFBMsg] with an [is_chat]
    attribute, and when that is true the value has a [chat_type] other
    than [ChatType.Group]. *)
Definition entry_ok (h : heap) (entries : list (pyval * pyval)) (i : pyval)
  : bool :=
  EFBMsgTargetSubstitution.key_ok i &&
  match assoc i entries with
  | Some v =>
      isinstance h v EFBMsg &&
      match read_attr h v "is_chat" with
      | Some is_chat =>
          if truthy h is_chat
          then
            match read_attr h v "chat_type" with
            | Some chat_type => negb (py_eqb chat_type (VChatType Group))
            | None => false
            end
          else true
      | None => false
      end
  | None => false
  end.

(** The exceptions a substitution target fails with. *)
Definition TypeError_or_AttributeError (e : exn) : Prop :=
  match e with
  | TypeError _ | AttributeError _ => True
  | _ => False
  end.

(** ** The store: allocation, attributes, extension *)

Section store.

Implicit Types (h : heap) (o : pyobj) (v : pyval) (a self : addr).

Lemma bind_Ok {A B} (m : M A) (k : A -> M B) h x h' :
  m h = Ok (x, h') -> bind m k h = k x h'.
Proof. intros E. unfold bind. now rewrite E. Qed.

Lemma bind_inv {A B} (m : M A) (k : A -> M B) h r :
  bind m k h = Ok r -> exists x h1, m h = Ok (x, h1) /\ k x h1 = Ok r.
Proof.
  unfold bind. destruct (m h) as [[x h1] | e]; [|discriminate].
  intros E. now exists x, h1.
Qed.

Lemma lookup_new h o : (h ++ [o]) !! length h = Some o.
Proof. now rewrite list_lookup_middle. Qed.

Lemma lookup_set h a o x : h !! a = Some x -> <[a := o]> h !! a = Some o.
Proof. intros E. apply list_lookup_insert_eq. eapply lookup_lt_Some, E. Qed.

Lemma old_is_not_new h a x : h !! a = Some x -> a <> length h.
Proof. intros E%lookup_lt_Some. lia. Qed.

Lemma setattr_Ok self name v h c attrs :
  h !! self = Some (OInst c attrs) ->
  setattr self name v h = Ok (tt, <[self := OInst c (<[name := v]> attrs)]> h).
Proof. intros E. unfold setattr. now rewrite E. Qed.

Lemma bind_setattr {B} self name v (k : unit -> M B) h c attrs :
  h !! self = Some (OInst c attrs) ->
  bind (setattr self name v) k h
  = k tt (<[self := OInst c (<[name := v]> attrs)]> h).
Proof. intros E. apply bind_Ok. now apply setattr_Ok. Qed.

Lemma getattr_Ok self name h c attrs x :
  h !! self = Some (OInst c attrs) -> attrs !! name = Some x ->
  getattr (VRef self) name h = Ok (x, h).
Proof. intros E1 E2. unfold getattr. now rewrite E1, E2. Qed.

(** A class call allocates the instance, runs the initialiser on it and
    returns it. *)
Lemma instantiate_Ok cls init h h' :
  is_abstract cls = false ->
  init (length h) (h ++ [OInst cls ∅]) = Ok (tt, h') ->
  instantiate cls init h = Ok (VRef (length h), h').
Proof.
  intros Hc E. unfold instantiate. rewrite Hc.
  unfold bind, alloc. now rewrite E.
Qed.

Lemma instantiate_Raise cls init h e :
  is_abstract cls = false ->
  init (length h) (h ++ [OInst cls ∅]) = Raise e ->
  instantiate cls init h = Raise e.
Proof.
  intros Hc E. unfold instantiate. rewrite Hc.
  unfold bind, alloc. now rewrite E.
Qed.

Lemma instantiate_inv cls init h r :
  instantiate cls init h = Ok r ->
  is_abstract cls = false /\
  exists h', init (length h) (h ++ [OInst cls ∅]) = Ok (tt, h')
             /\ r = (VRef (length h), h').
Proof.
  unfold instantiate. destruct (is_abstract cls); [discriminate|].
  unfold bind, alloc.
  destruct (init _ _) as [[u h'] | e]; [|discriminate].
  destruct u. intros [= <-]. eauto.
Qed.

Lemma lookup_ext h o a :
  (h ++ [o]) !! a
  = match h !! a with
    | Some x => Some x
    | None => if decide (a = length h) then Some o else None
    end.
Proof.
  destruct (h !! a) as [x|] eqn:E.
  - now apply lookup_app_l_Some.
  - apply lookup_ge_None_1 in E. case_decide as Ha.
    + subst a. apply lookup_new.
    + apply lookup_ge_None_2. rewrite length_app. simpl. lia.
Qed.

(** Allocating an object changes no test on the type of a value, unless
    the object has just that type. *)
Lemma isinstance_list_ext h o v :
  match o with OList _ => False | _ => True end ->
  isinstance_list (h ++ [o]) v = isinstance_list h v.
Proof.
  intros Ho. destruct v as [| | | | | | | |a]; try reflexivity.
  unfold isinstance_list. rewrite lookup_ext.
  destruct (h !! a); [done|]. case_decide; [|done]. now destruct o.
Qed.

Lemma isinstance_dict_ext h o v :
  match o with ODict _ => False | _ => True end ->
  isinstance_dict (h ++ [o]) v = isinstance_dict h v.
Proof.
  intros Ho. destruct v as [| | | | | | | |a]; try reflexivity.
  unfold isinstance_dict. rewrite lookup_ext.
  destruct (h !! a); [done|]. case_decide; [|done]. now destruct o.
Qed.

Lemma isinstance_list_new h c attrs v :
  isinstance_list (h ++ [OInst c attrs]) v = isinstance_list h v.
Proof. now apply isinstance_list_ext. Qed.

Lemma isinstance_dict_new h c attrs v :
  isinstance_dict (h ++ [OInst c attrs]) v = isinstance_dict h v.
Proof. now apply isinstance_dict_ext. Qed.

Lemma isinstance_new h c attrs v cls :
  issubclass c cls = false ->
  isinstance (h ++ [OInst c attrs]) v cls = isinstance h v cls.
Proof.
  intros Hc. destruct v as [| | | | | | | |a]; try reflexivity.
  unfold isinstance. rewrite lookup_ext.
  destruct (h !! a); [done|]. now case_decide.
Qed.

Lemma list_items_new h c attrs v :
  list_items (h ++ [OInst c attrs]) v = list_items h v.
Proof.
  destruct v as [| | | | | | | |a]; try reflexivity.
  unfold list_items. rewrite lookup_ext.
  destruct (h !! a); [done|]. now case_decide.
Qed.

Lemma dict_entries_new h c attrs v :
  dict_entries (h ++ [OInst c attrs]) v = dict_entries h v.
Proof.
  destruct v as [| | | | | | | |a]; try reflexivity.
  unfold dict_entries. rewrite lookup_ext.
  destruct (h !! a); [done|]. now case_decide.
Qed.

End store.

(** One assignment [self.name = v] of an initialiser. *)
Ltac assign :=
  erewrite bind_setattr
    by (first [ eassumption | apply lookup_new
              | eapply lookup_set; first [eassumption | apply lookup_new] ]);
  rewrite ?list_insert_insert_eq; cbv beta.

(** ** [EFBMsg] *)

Lemma EFBMsg_init_Ok (self : addr) (h : heap) c attrs :
  h !! self = Some (OInst c attrs) ->
  EFBMsg.__init__ self h
  = Ok (tt, <[self := OInst c (EFBMsg_defaults (VRef (length h)) attrs)]> h
            ++ [ODict []]).
Proof.
  intros E. unfold EFBMsg.__init__.
  do 16 assign.
  unfold new_dict, alloc, ret, bind.
  erewrite setattr_Ok
    by (apply lookup_app_l_Some; eapply lookup_set; eassumption).
  rewrite length_insert, insert_app_l
    by (rewrite length_insert; eapply lookup_lt_Some; eassumption).
  now rewrite list_insert_insert_eq.
Qed.

Lemma EFBMsg_new_Ok (h : heap) :
  EFBMsg.new h
  = Ok (VRef (length h),
        h ++ [OInst EFBMsg (EFBMsg_defaults (VRef (S (length h))) ∅);
              ODict []]).
Proof.
  unfold EFBMsg.new. apply instantiate_Ok; [reflexivity|].
  rewrite (EFBMsg_init_Ok _ _ EFBMsg ∅) by apply lookup_new.
  rewrite length_app, Nat.add_1_r.
  replace (length h) with (length h + 0) at 1 by lia.
  rewrite insert_app_r. simpl. now rewrite <- app_assoc.
Qed.

(** Reading an attribute of a message just constructed. *)
Lemma EFBMsg_new_getattr (h : heap) name x o :
  EFBMsg_defaults (VRef (S (length h))) ∅ !! name = Some x ->
  let h' := h ++ [OInst EFBMsg (EFBMsg_defaults (VRef (S (length h))) ∅); o] in
  getattr (VRef (length h)) name h' = Ok (x, h').
Proof.
  intros E h'. eapply getattr_Ok; [|exact E].
  unfold h'. apply list_lookup_middle. reflexivity.
Qed.

(** C9: a message constructed with [EFBMsg()] has [source] set to
    [ChatType.User] and [type] set to [MsgType.Text], next to the other
    defaults: empty text, both flags false, and no uid, attributes or
    target. *)
Theorem EFBMsg_new_source_and_type (h : heap) :
  exists self h',
    EFBMsg.new h = Ok (VRef self, h') /\
    getattr (VRef self) "source" h' = Ok (VChatType User, h') /\
    getattr (VRef self) "type" h' = Ok (VMsgType Text, h') /\
    getattr (VRef self) "text" h' = Ok (VStr "", h') /\
    getattr (VRef self) "is_system" h' = Ok (VBool false, h') /\
    getattr (VRef self) "edit" h' = Ok (VBool false, h') /\
    getattr (VRef self) "uid" h' = Ok (VNone, h') /\
    getattr (VRef self) "attributes" h' = Ok (VNone, h') /\
    getattr (VRef self) "target" h' = Ok (VNone, h').
Proof.
  eexists _, _. split; [apply EFBMsg_new_Ok|].
  repeat split; now apply EFBMsg_new_getattr.
Qed.

(** C5, as stated, fails: the message [EFBMsg()] returns has no origin. *)
Lemma EFBMsg_new_origin_not_present :
  ~ (forall (h : heap) self h',
        EFBMsg.new h = Ok (VRef self, h') ->
        present h' (VRef self) "origin" /\
        present h' (VRef self) "destination").
Proof.
  intros H.
  destruct (H [] 0 _ (EFBMsg_new_Ok [])) as [[x [E Hx]] _].
  vm_compute in E. injection E as <-. discriminate Hx.
Qed.

(** C5, amended: in the message [EFBMsg()] returns, [origin] and
    [destination] are [None], as [member] is; each holds a chat from the
    moment the producer of the message assigns one. *)
Theorem EFBMsg_new_origin_destination_None (h : heap) :
  exists self h',
    EFBMsg.new h = Ok (VRef self, h') /\
    getattr (VRef self) "origin" h' = Ok (VNone, h') /\
    getattr (VRef self) "destination" h' = Ok (VNone, h') /\
    getattr (VRef self) "member" h' = Ok (VNone, h') /\
    forall name chat,
      exists h'',
        setattr self name chat h' = Ok (tt, h'') /\
        getattr (VRef self) name h'' = Ok (chat, h'').
Proof.
  eexists _, _. split; [apply EFBMsg_new_Ok|].
  repeat split; try now apply EFBMsg_new_getattr.
  intros name chat. eexists. split.
  - apply setattr_Ok. now apply list_lookup_middle.
  - eapply getattr_Ok.
    + eapply lookup_set. now apply list_lookup_middle.
    + apply lookup_insert_eq.
Qed.

(** ** The abstract bases *)

(** C6, as stated, fails: the call [EFBMsgAttribute()] fails, but with the
    [TypeError] of a class that has an abstract method, which is not of the
    instantiation kind. *)
Lemma abstract_base_call_raises_TypeError :
  ~ (forall args (h : heap),
        exists e, EFBMsgAttribute.new args h = Raise e
                  /\ kind_of e = InstantiationError).
Proof.
  intros H. destruct (H [] []) as (e & E & He).
  injection E as <-. discriminate He.
Qed.

(** C6, amended: calling [EFBMsgAttribute] or [EFBMsgTarget], with any
    arguments, always fails, with the [TypeError] Python raises for a class
    that has an abstract method, before [__init__] is entered.  Running the
    [__init__] of either on any object, which is what a subclass or an
    explicit call of [__init__] reaches, fails with an error of the
    instantiation kind.  No class call that returns has an abstract base as
    its class. *)
Theorem abstract_bases_never_instantiated :
  (forall args (h : heap),
      exists msg, EFBMsgAttribute.new args h = Raise (TypeError msg)) /\
  (forall args (h : heap),
      exists msg, EFBMsgTarget.new args h = Raise (TypeError msg)) /\
  (forall self (h : heap),
      exists e, EFBMsgAttribute.__init__ self h = Raise e
                /\ kind_of e = InstantiationError) /\
  (forall self (h : heap),
      exists e, EFBMsgTarget.__init__ self h = Raise e
                /\ kind_of e = InstantiationError) /\
  (forall cls init (h : heap) r,
      instantiate cls init h = Ok r ->
      cls <> EFBMsgAttribute /\ cls <> EFBMsgTarget).
Proof.
  split; [intros; eexists; reflexivity|].
  split; [intros; eexists; reflexivity|].
  split; [intros; eexists; split; reflexivity|].
  split; [intros; eexists; split; reflexivity|].
  intros cls init h r [Hc _]%instantiate_inv.
  split; now intros ->.
Qed.

(** ** [EFBMsgLinkAttribute] *)

Lemma EFBMsgLinkAttribute_new_Ok (h : heap) title description image url :
  is_None title || is_None url = false ->
  EFBMsgLinkAttribute.new title description image url h
  = Ok (VRef (length h),
        h ++ [OInst EFBMsgLinkAttribute
                (<["url" := url]> (<["image" := image]>
                   (<["description" := description]>
                      (<["title" := title]> ∅))))]).
Proof.
  intros Hreq. unfold EFBMsgLinkAttribute.new.
  apply instantiate_Ok; [reflexivity|].
  unfold EFBMsgLinkAttribute.__init__. rewrite Hreq.
  do 3 assign.
  erewrite setattr_Ok by (eapply lookup_set, lookup_new).
  rewrite list_insert_insert_eq.
  replace (length h) with (length h + 0) by lia.
  now rewrite insert_app_r.
Qed.

Lemma EFBMsgLinkAttribute_new_Raise (h : heap) title description image url :
  is_None title || is_None url = true ->
  EFBMsgLinkAttribute.new title description image url h
  = Raise (ValueError "Title and URL is required.").
Proof.
  intros Hreq. unfold EFBMsgLinkAttribute.new.
  apply instantiate_Raise; [reflexivity|].
  unfold EFBMsgLinkAttribute.__init__. now rewrite Hreq.
Qed.

(** C4, as stated, fails: an empty title and an empty url are accepted. *)
Lemma EFBMsgLinkAttribute_accepts_empty_strings :
  ~ (forall (h : heap) title description image url,
        title = VNone \/ title = VStr "" \/ url = VNone \/ url = VStr "" ->
        exists e,
          EFBMsgLinkAttribute.new title description image url h = Raise e
          /\ kind_of e = ValidationError).
Proof.
  intros H.
  destruct (H [] (VStr "") VNone VNone (VStr "")) as [e [E _]]; [auto|].
  rewrite EFBMsgLinkAttribute_new_Ok in E by reflexivity. discriminate E.
Qed.

(** C4, amended: the construction of a link attribute fails with
    [ValueError] exactly when [title] or [url] is [None], which is what an
    omitted argument is; an empty string is accepted as any other value
    is.  When it succeeds, the attribute holds [title], [description],
    [image] and [url] as given, so a description or an image that was
    omitted is [None]. *)
Theorem EFBMsgLinkAttribute_new_spec (h : heap) title description image url :
  if is_None title || is_None url
  then
    exists e,
      EFBMsgLinkAttribute.new title description image url h = Raise e
      /\ kind_of e = ValidationError
  else
    exists self h',
      EFBMsgLinkAttribute.new title description image url h
      = Ok (VRef self, h') /\
      getattr (VRef self) "title" h' = Ok (title, h') /\
      getattr (VRef self) "url" h' = Ok (url, h') /\
      getattr (VRef self) "description" h' = Ok (description, h') /\
      getattr (VRef self) "image" h' = Ok (image, h').
Proof.
  destruct (is_None title || is_None url) eqn:Hreq.
  - eexists. split; [now apply EFBMsgLinkAttribute_new_Raise|reflexivity].
  - eexists _, _. split; [now apply EFBMsgLinkAttribute_new_Ok|].
    repeat split; (eapply getattr_Ok; [apply lookup_new|]);
      now simplify_map_eq.
Qed.

(** ** [EFBMsgCommandAttribute] *)

Lemma list_copy_Ok (h : heap) a items :
  h !! a = Some (OList items) ->
  list_copy (VRef a) h = Ok (VRef (length h), h ++ [OList items]).
Proof. intros E. unfold list_copy. now rewrite E. Qed.

Lemma dict_copy_Ok (h : heap) a entries :
  h !! a = Some (ODict entries) ->
  dict_copy (VRef a) h = Ok (VRef (length h), h ++ [ODict entries]).
Proof. intros E. unfold dict_copy. now rewrite E. Qed.

Lemma list_update_Ok (h : heap) a items f :
  h !! a = Some (OList items) ->
  list_update a f h = Ok (tt, <[a := OList (f items)]> h).
Proof. intros E. unfold list_update. now rewrite E. Qed.

Lemma dict_update_Ok (h : heap) a entries f :
  h !! a = Some (ODict entries) ->
  dict_update a f h = Ok (tt, <[a := ODict (f entries)]> h).
Proof. intros E. unfold dict_update. now rewrite E. Qed.

Lemma forallb_isinstance_new (h : heap) c attrs cls l :
  issubclass c cls = false ->
  forallb (fun i => isinstance (h ++ [OInst c attrs]) i cls) l
  = forallb (fun i => isinstance h i cls) l.
Proof.
  intros Hc. induction l as [|i l IH]; [reflexivity|].
  simpl. now rewrite IH, isinstance_new.
Qed.

(** The test of [EFBMsgCommandAttribute.__init__], in the store the caller
    had. *)
Lemma EFBMsgCommandAttribute_new_test (h : heap) commands :
  EFBMsgCommandAttribute.new commands h
  = if isinstance_list h commands
       && (0 <? length (list_items h commands))
       && forallb (fun i => isinstance h i EFBMsgCommand)
            (list_items h commands)
    then
      Ok (VRef (length h),
          h ++ [OInst EFBMsgCommandAttribute
                  {["commands" := VRef (S (length h))]};
                OList (list_items h commands)])
    else
      Raise (ValueError
        "There must be one or more commands, and all of them must be in type EFBMsgCommand.").
Proof.
  unfold EFBMsgCommandAttribute.new.
  destruct (_ && _ && _) eqn:Hc.
  - apply instantiate_Ok; [reflexivity|].
    unfold EFBMsgCommandAttribute.__init__, bind at 1, get_heap.
    rewrite isinstance_list_new, list_items_new, forallb_isinstance_new, Hc
      by reflexivity.
    cbn [negb].
    apply andb_prop in Hc as [[Hl _]%andb_prop _].
    destruct commands as [| | | | | | | |a]; try discriminate Hl.
    unfold isinstance_list in Hl. unfold list_items.
    destruct (h !! a) as [[items| |]|] eqn:E; try discriminate Hl.
    erewrite bind_Ok
      by (apply list_copy_Ok, lookup_app_l_Some, E).
    erewrite setattr_Ok
      by (apply lookup_app_l_Some, lookup_new).
    rewrite length_app, Nat.add_1_r.
    rewrite insert_app_l by (rewrite length_app; simpl; lia).
    replace (length h) with (length h + 0) at 1 by lia.
    rewrite insert_app_r. simpl. rewrite <- app_assoc. simpl.
    now rewrite insert_empty.
  - apply instantiate_Raise; [reflexivity|].
    unfold EFBMsgCommandAttribute.__init__, bind at 1, get_heap.
    now rewrite isinstance_list_new, list_items_new, forallb_isinstance_new, Hc
      by reflexivity.
Qed.

(** C7: on a non-empty list whose items are all [EFBMsgCommand]
    instances the construction succeeds and keeps a new list with the same
    items, which a later change of the caller's list does not reach; on a
    value that is not a list, on the empty list and on a list with an item
    that is not an [EFBMsgCommand] it fails with [ValueError]. *)
Theorem EFBMsgCommandAttribute_new_spec (h : heap) (commands : pyval) :
  (forall a items,
      commands = VRef a -> h !! a = Some (OList items) -> items <> [] ->
      Forall (fun i => isinstance h i EFBMsgCommand = true) items ->
      exists self c h',
        EFBMsgCommandAttribute.new commands h = Ok (VRef self, h') /\
        getattr (VRef self) "commands" h' = Ok (VRef c, h') /\
        c <> a /\ h !! c = None /\
        h' !! c = Some (OList items) /\
        forall f, exists h'',
          list_update a f h' = Ok (tt, h'') /\
          h'' !! a = Some (OList (f items)) /\
          h'' !! c = Some (OList items) /\
          getattr (VRef self) "commands" h'' = Ok (VRef c, h'')) /\
  (isinstance_list h commands = false ->
   exists e, EFBMsgCommandAttribute.new commands h = Raise e
             /\ kind_of e = ValidationError) /\
  (list_items h commands = [] ->
   exists e, EFBMsgCommandAttribute.new commands h = Raise e
             /\ kind_of e = ValidationError) /\
  (forall i,
      i ∈ list_items h commands -> isinstance h i EFBMsgCommand = false ->
      exists e, EFBMsgCommandAttribute.new commands h = Raise e
                /\ kind_of e = ValidationError).
Proof.
  rewrite EFBMsgCommandAttribute_new_test. repeat split.
  - intros a items -> E Hne Hall.
    assert (Ha : a < length h) by (eapply lookup_lt_Some, E).
    unfold isinstance_list, list_items. rewrite E.
    replace (0 <? length items) with true
      by (destruct items; [done|reflexivity]).
    replace (forallb _ items) with true
      by (symmetry; apply forallb_forall; intros x Hx;
          rewrite Forall_forall in Hall; apply Hall;
          now apply list_elem_of_In).
    simpl andb. cbv iota.
    exists (length h), (S (length h)). eexists. split; [reflexivity|].
    assert (Hself : forall o,
      (h ++ [OInst EFBMsgCommandAttribute {["commands" := VRef (S (length h))]};
             o]) !! length h
      = Some (OInst EFBMsgCommandAttribute
                {["commands" := VRef (S (length h))]}))
      by (intros o; now apply list_lookup_middle).
    assert (Hc : forall o1 o2, (h ++ [o1; o2]) !! S (length h) = Some o2).
    { intros o1 o2. rewrite lookup_app_r by lia.
      now replace (S (length h) - length h) with 1 by lia. }
    split; [|split; [|split; [|split]]].
    + eapply getattr_Ok; [apply Hself|]. apply lookup_singleton_eq.
    + lia.
    + apply lookup_ge_None_2. lia.
    + apply Hc.
    + intros f. eexists. split; [|split; [|split]].
      * apply list_update_Ok. apply lookup_app_l_Some, E.
      * eapply lookup_set. apply lookup_app_l_Some, E.
      * rewrite list_lookup_insert_ne by lia. apply Hc.
      * eapply getattr_Ok; [|apply lookup_singleton_eq].
        rewrite list_lookup_insert_ne by lia. apply Hself.
  - intros ->. eexists. split; reflexivity.
  - intros ->. rewrite andb_false_r. eexists. split; reflexivity.
  - intros i Hi Hcls.
    replace (forallb _ _) with false.
    + rewrite andb_false_r. eexists. split; reflexivity.
    + symmetry. apply not_true_is_false. intros Hall.
      rewrite forallb_forall in Hall.
      apply list_elem_of_In in Hi. apply Hall in Hi. congruence.
Qed.

(** ** [EFBMsgCommand] *)

(** An omitted [args] is a new empty list, an omitted [kwargs] a new empty
    dict. *)
Lemma EFBMsgCommand_init_args_None (h : heap) self name callable_name kwargs :
  EFBMsgCommand.__init__ self name callable_name VNone kwargs h
  = EFBMsgCommand.__init__ self name callable_name (VRef (length h)) kwargs
      (h ++ [OList []]).
Proof. reflexivity. Qed.

Lemma EFBMsgCommand_init_kwargs_None (h : heap) self name callable_name args :
  is_None args = false ->
  EFBMsgCommand.__init__ self name callable_name args VNone h
  = EFBMsgCommand.__init__ self name callable_name args (VRef (length h))
      (h ++ [ODict []]).
Proof.
  intros Hargs. unfold EFBMsgCommand.__init__. now rewrite Hargs.
Qed.

(** The four tests, on arguments that are not [None]. *)
Lemma EFBMsgCommand_init_Raise (h : heap) self name callable_name args kwargs :
  is_None args = false -> is_None kwargs = false ->
  isinstance_str name && isinstance_str callable_name
  && isinstance_list h args && isinstance_dict h kwargs = false ->
  exists msg,
    EFBMsgCommand.__init__ self name callable_name args kwargs h
    = Raise (TypeError msg).
Proof.
  intros Hargs Hkwargs Hc. unfold EFBMsgCommand.__init__.
  rewrite Hargs, Hkwargs. unfold bind at 1 2 3, ret, get_heap.
  destruct (isinstance_str name); [|now eexists].
  destruct (isinstance_str callable_name); [|now eexists].
  destruct (isinstance_list h args); [|now eexists].
  destruct (isinstance_dict h kwargs); [discriminate Hc|now eexists].
Qed.

Lemma EFBMsgCommand_init_Ok (h : heap) self c attrs n cn a items k entries :
  h !! self = Some (OInst c attrs) ->
  h !! a = Some (OList items) ->
  h !! k = Some (ODict entries) ->
  EFBMsgCommand.__init__ self (VStr n) (VStr cn) (VRef a) (VRef k) h
  = Ok (tt,
        <[self := OInst c
             (EFBMsgCommand_fields (VStr n) (VRef (length h))
                (VRef (S (length h))) attrs)]> h
        ++ [OList items; ODict entries]).
Proof.
  intros Hself Ha Hk.
  assert (Hlt : self < length h) by (eapply lookup_lt_Some, Hself).
  assert (a <> self) by congruence.
  assert (k <> self) by congruence.
  unfold EFBMsgCommand.__init__, is_None.
  unfold bind at 1 2 3, ret, get_heap.
  unfold isinstance_list, isinstance_dict. rewrite Ha, Hk.
  cbn [isinstance_str negb].
  do 2 assign.
  erewrite bind_Ok
    by (apply list_copy_Ok; rewrite list_lookup_insert_ne by done; exact Ha).
  erewrite bind_setattr
    by (apply lookup_app_l_Some; eapply lookup_set; eassumption).
  rewrite insert_app_l, list_insert_insert_eq by now rewrite length_insert.
  erewrite bind_Ok
    by (apply dict_copy_Ok, lookup_app_l_Some;
        rewrite list_lookup_insert_ne by done; exact Hk).
  erewrite setattr_Ok
    by (do 2 apply lookup_app_l_Some; eapply lookup_set; eassumption).
  rewrite !length_app, !length_insert. simpl length.
  rewrite Nat.add_1_r.
  rewrite !insert_app_l, list_insert_insert_eq
    by (rewrite ?length_app, length_insert; lia).
  now rewrite <- app_assoc.
Qed.

Lemma list_or_None (h : heap) args :
  is_None args || isinstance_list h args = true ->
  args = VNone \/ exists b items, args = VRef b /\ h !! b = Some (OList items).
Proof.
  intros H. destruct args as [| | | | | | | |b];
    try discriminate H; [now left|right].
  unfold isinstance_list in H. cbn [is_None orb] in H.
  destruct (h !! b) as [[items| |]|] eqn:E; try discriminate H. eauto.
Qed.

Lemma dict_or_None (h : heap) kwargs :
  is_None kwargs || isinstance_dict h kwargs = true ->
  kwargs = VNone
  \/ exists b entries, kwargs = VRef b /\ h !! b = Some (ODict entries).
Proof.
  intros H. destruct kwargs as [| | | | | | | |b];
    try discriminate H; [now left|right].
  unfold isinstance_dict in H. cbn [is_None orb] in H.
  destruct (h !! b) as [[| entries |]|] eqn:E; try discriminate H. eauto.
Qed.

(** The store an initialiser leaves when it has set the attributes of
    [self] and allocated two containers. *)
Lemma store_after_copies (h : heap) self c attrs o1 o2 :
  self < length h ->
  let h' := <[self := OInst c attrs]> h ++ [o1; o2] in
  h' !! self = Some (OInst c attrs) /\
  h' !! length h = Some o1 /\
  h' !! S (length h) = Some o2 /\
  forall x o, x <> self -> h !! x = Some o -> h' !! x = Some o.
Proof.
  intros Hlt h'. unfold h'. repeat split.
  - apply lookup_app_l_Some. now apply list_lookup_insert_eq.
  - rewrite <- (length_insert h self (OInst c attrs)).
    now apply list_lookup_middle.
  - rewrite lookup_app_r by (rewrite length_insert; lia).
    rewrite length_insert.
    now replace (S (length h) - length h) with 1 by lia.
  - intros x o Hx E. apply lookup_app_l_Some.
    now rewrite list_lookup_insert_ne.
Qed.

(** What [EFBMsgCommand(name, callable_name, args, kwargs)] returns and
    leaves in the store, for strings [name] and [callable_name], [args] a
    list or omitted and [kwargs] a dict or omitted. *)
Lemma EFBMsgCommand_new_Ok (h : heap) n cn args kwargs :
  is_None args || isinstance_list h args = true ->
  is_None kwargs || isinstance_dict h kwargs = true ->
  exists a k h',
    EFBMsgCommand.new (VStr n) (VStr cn) args kwargs h
    = Ok (VRef (length h), h') /\
    h' !! length h
    = Some (OInst EFBMsgCommand
              (EFBMsgCommand_fields (VStr n) (VRef a) (VRef k) ∅)) /\
    h' !! a = Some (OList (list_items h args)) /\
    h' !! k = Some (ODict (dict_entries h kwargs)) /\
    length h < a /\ length h < k /\
    forall x o, h !! x = Some o -> h' !! x = Some o.
Proof.
  intros Hargs Hkwargs.
  pose (h0 := h ++ [OInst EFBMsgCommand ∅]).
  assert (Hself : h0 !! length h = Some (OInst EFBMsgCommand ∅))
    by apply lookup_new.
  assert (Hlen : length h0 = S (length h))
    by (unfold h0; rewrite length_app; simpl; lia).
  assert (Hold : forall x o, h !! x = Some o -> h0 !! x = Some o)
    by (intros x o; apply lookup_app_l_Some).
  assert (Hne : forall x o, h !! x = Some o -> x <> length h)
    by (intros x o; apply old_is_not_new).
  unfold EFBMsgCommand.new.
  apply list_or_None in Hargs as [->|(b & items & -> & Eb)];
    apply dict_or_None in Hkwargs as [->|(d & entries & -> & Ed)].
  - (* both omitted *)
    pose (h2 := h0 ++ [OList []] ++ [ODict []]).
    destruct (store_after_copies h2 (length h) EFBMsgCommand
      (EFBMsgCommand_fields (VStr n) (VRef (length h2))
         (VRef (S (length h2))) ∅) (OList []) (ODict []))
      as (H1 & H2 & H3 & H4).
    { unfold h2. rewrite !length_app. lia. }
    eexists _, _, _. split; [|split; [|split; [|split; [|split; [|split]]]]].
    + apply instantiate_Ok; [reflexivity|]. fold h0.
      rewrite EFBMsgCommand_init_args_None.
      rewrite EFBMsgCommand_init_kwargs_None by reflexivity.
      rewrite <- app_assoc. fold h2.
      apply EFBMsgCommand_init_Ok.
      * unfold h2. apply lookup_app_l_Some, Hself.
      * unfold h2. now apply list_lookup_middle.
      * unfold h2. rewrite app_assoc. apply lookup_new.
    + exact H1.
    + exact H2.
    + exact H3.
    + unfold h2. rewrite !length_app. lia.
    + unfold h2. rewrite !length_app. lia.
    + intros x o E. apply H4; [eapply Hne, E|].
      unfold h2. apply lookup_app_l_Some. eauto.
  - (* [args] omitted *)
    pose (h1 := h0 ++ [OList []]).
    destruct (store_after_copies h1 (length h) EFBMsgCommand
      (EFBMsgCommand_fields (VStr n) (VRef (length h1))
         (VRef (S (length h1))) ∅) (OList []) (ODict entries))
      as (H1 & H2 & H3 & H4).
    { unfold h1. rewrite !length_app. lia. }
    eexists _, _, _. split; [|split; [|split; [|split; [|split; [|split]]]]].
    + apply instantiate_Ok; [reflexivity|]. fold h0.
      rewrite EFBMsgCommand_init_args_None. fold h1.
      apply EFBMsgCommand_init_Ok.
      * unfold h1. apply lookup_app_l_Some, Hself.
      * unfold h1. now apply list_lookup_middle.
      * unfold h1. apply lookup_app_l_Some. eauto.
    + exact H1.
    + exact H2.
    + unfold dict_entries. rewrite Ed. exact H3.
    + unfold h1. rewrite !length_app. lia.
    + unfold h1. rewrite !length_app. lia.
    + intros x o E. apply H4; [eapply Hne, E|].
      unfold h1. apply lookup_app_l_Some. eauto.
  - (* [kwargs] omitted *)
    pose (h1 := h0 ++ [ODict []]).
    destruct (store_after_copies h1 (length h) EFBMsgCommand
      (EFBMsgCommand_fields (VStr n) (VRef (length h1))
         (VRef (S (length h1))) ∅) (OList items) (ODict []))
      as (H1 & H2 & H3 & H4).
    { unfold h1. rewrite !length_app. lia. }
    eexists _, _, _. split; [|split; [|split; [|split; [|split; [|split]]]]].
    + apply instantiate_Ok; [reflexivity|]. fold h0.
      rewrite EFBMsgCommand_init_kwargs_None by reflexivity. fold h1.
      apply EFBMsgCommand_init_Ok.
      * unfold h1. apply lookup_app_l_Some, Hself.
      * unfold h1. apply lookup_app_l_Some. eauto.
      * unfold h1. now apply list_lookup_middle.
    + exact H1.
    + unfold list_items. rewrite Eb. exact H2.
    + exact H3.
    + unfold h1. rewrite !length_app. lia.
    + unfold h1. rewrite !length_app. lia.
    + intros x o E. apply H4; [eapply Hne, E|].
      unfold h1. apply lookup_app_l_Some. eauto.
  - (* both given *)
    destruct (store_after_copies h0 (length h) EFBMsgCommand
      (EFBMsgCommand_fields (VStr n) (VRef (length h0))
         (VRef (S (length h0))) ∅) (OList items) (ODict entries))
      as (H1 & H2 & H3 & H4); [lia|].
    eexists _, _, _. split; [|split; [|split; [|split; [|split; [|split]]]]].
    + apply instantiate_Ok; [reflexivity|]. fold h0.
      apply EFBMsgCommand_init_Ok; eauto.
    + exact H1.
    + unfold list_items. rewrite Eb. exact H2.
    + unfold dict_entries. rewrite Ed. exact H3.
    + lia.
    + lia.
    + intros x o E. apply H4; [eapply Hne, E|]. eauto.
Qed.

Lemma is_None_true v : is_None v = true -> v = VNone.
Proof. now destruct v. Qed.

Lemma isinstance_list_last (h : heap) items :
  isinstance_list (h ++ [OList items]) (VRef (length h)) = true.
Proof. unfold isinstance_list. now rewrite lookup_new. Qed.

Lemma isinstance_dict_last (h : heap) entries :
  isinstance_dict (h ++ [ODict entries]) (VRef (length h)) = true.
Proof. unfold isinstance_dict. now rewrite lookup_new. Qed.

Lemma EFBMsgCommand_new_Raise (h : heap) name callable_name args kwargs :
  isinstance_str name && isinstance_str callable_name
  && (is_None args || isinstance_list h args)
  && (is_None kwargs || isinstance_dict h kwargs) = false ->
  exists msg,
    EFBMsgCommand.new name callable_name args kwargs h
    = Raise (TypeError msg).
Proof.
  intros Hc.
  cut (exists msg,
         EFBMsgCommand.__init__ (length h) name callable_name args kwargs
           (h ++ [OInst EFBMsgCommand ∅]) = Raise (TypeError msg)).
  { intros [msg E]. exists msg. unfold EFBMsgCommand.new.
    now apply instantiate_Raise. }
  destruct (is_None args) eqn:Hargs; destruct (is_None kwargs) eqn:Hkwargs;
    try apply is_None_true in Hargs as ->;
    try apply is_None_true in Hkwargs as ->;
    cbn [orb] in Hc.
  - rewrite EFBMsgCommand_init_args_None.
    rewrite EFBMsgCommand_init_kwargs_None by reflexivity.
    apply EFBMsgCommand_init_Raise; try reflexivity.
    rewrite isinstance_dict_last.
    rewrite isinstance_list_ext, isinstance_list_last by exact I.
    exact Hc.
  - rewrite EFBMsgCommand_init_args_None.
    apply EFBMsgCommand_init_Raise; [reflexivity|exact Hkwargs|].
    rewrite isinstance_list_last.
    rewrite !isinstance_dict_ext by exact I.
    exact Hc.
  - rewrite EFBMsgCommand_init_kwargs_None by exact Hargs.
    apply EFBMsgCommand_init_Raise; [exact Hargs|reflexivity|].
    rewrite isinstance_dict_last.
    rewrite !isinstance_list_ext by exact I.
    exact Hc.
  - apply EFBMsgCommand_init_Raise; [exact Hargs|exact Hkwargs|].
    rewrite isinstance_list_ext, isinstance_dict_ext by exact I.
    exact Hc.
Qed.

(** C1: for strings [name] and [callable_name], [args] a list or omitted
    and [kwargs] a dict or omitted, the construction succeeds and the
    command holds [name] under [name]; under [callable] it holds the
    built-in function [callable], whatever string was given. *)
Theorem EFBMsgCommand_new_stores_builtin_callable
  (h : heap) (n cn : string) (args kwargs : pyval) :
  is_None args || isinstance_list h args = true ->
  is_None kwargs || isinstance_dict h kwargs = true ->
  exists self h',
    EFBMsgCommand.new (VStr n) (VStr cn) args kwargs h = Ok (VRef self, h') /\
    getattr (VRef self) "name" h' = Ok (VStr n, h') /\
    getattr (VRef self) "callable" h' = Ok (VBuiltin "callable", h') /\
    VBuiltin "callable" <> VStr cn.
Proof.
  intros Hargs Hkwargs.
  destruct (EFBMsgCommand_new_Ok h n cn args kwargs Hargs Hkwargs)
    as (a & k & h' & E & Hself & _).
  exists (length h), h'. split; [exact E|].
  split; [|split; [|discriminate]];
    (eapply getattr_Ok; [exact Hself|]);
    unfold EFBMsgCommand_fields; now simplify_map_eq.
Qed.

(** C8, as stated, fails: [None] is not a list and not a dict, and with
    [None] for [args] and for [kwargs] the construction succeeds. *)
Lemma EFBMsgCommand_accepts_None_containers :
  ~ (forall (h : heap) name callable_name args kwargs,
        isinstance_str name = false \/ isinstance_str callable_name = false
        \/ isinstance_list h args = false
        \/ isinstance_dict h kwargs = false ->
        exists e,
          EFBMsgCommand.new name callable_name args kwargs h = Raise e
          /\ kind_of e = TypeErrorKind).
Proof.
  intros H.
  destruct (H [] (VStr "name") (VStr "callable_name") VNone VNone)
    as [e [E _]]; [auto|].
  vm_compute in E. discriminate E.
Qed.

(** C8, amended: the construction fails with [TypeError] when [name] or
    [callable_name] is not a string, when [args] is neither a list nor
    [None], and when [kwargs] is neither a dict nor [None]; [None], which
    is what an omitted container is, stands for an empty one.  Otherwise
    it succeeds, and the command holds a new list with the items of [args]
    and a new dict with the entries of [kwargs]: a later change of the
    caller's list or dict reaches neither. *)
Theorem EFBMsgCommand_new_spec
  (h : heap) (name callable_name args kwargs : pyval) :
  if isinstance_str name && isinstance_str callable_name
     && (is_None args || isinstance_list h args)
     && (is_None kwargs || isinstance_dict h kwargs)
  then
    exists self a k h',
      EFBMsgCommand.new name callable_name args kwargs h
      = Ok (VRef self, h') /\
      getattr (VRef self) "args" h' = Ok (VRef a, h') /\
      getattr (VRef self) "kwargs" h' = Ok (VRef k, h') /\
      h !! a = None /\ h !! k = None /\
      h' !! a = Some (OList (list_items h args)) /\
      h' !! k = Some (ODict (dict_entries h kwargs)) /\
      (forall b f, args = VRef b ->
         exists h'',
           list_update b f h' = Ok (tt, h'') /\
           h'' !! b = Some (OList (f (list_items h args))) /\
           h'' !! a = Some (OList (list_items h args)) /\
           getattr (VRef self) "args" h'' = Ok (VRef a, h'')) /\
      (forall b f, kwargs = VRef b ->
         exists h'',
           dict_update b f h' = Ok (tt, h'') /\
           h'' !! b = Some (ODict (f (dict_entries h kwargs))) /\
           h'' !! k = Some (ODict (dict_entries h kwargs)) /\
           getattr (VRef self) "kwargs" h'' = Ok (VRef k, h''))
  else
    exists e,
      EFBMsgCommand.new name callable_name args kwargs h = Raise e
      /\ kind_of e = TypeErrorKind.
Proof.
  destruct (_ && _ && _ && _) eqn:Hc.
  - apply andb_prop in Hc as [[[Hn Hcn]%andb_prop Hargs]%andb_prop Hkwargs].
    destruct name as [| | |n| | | | |]; try discriminate Hn.
    destruct callable_name as [| | |cn| | | | |]; try discriminate Hcn.
    destruct (EFBMsgCommand_new_Ok h n cn args kwargs Hargs Hkwargs)
      as (a & k & h' & E & Hself & Ha & Hk & Hlta & Hltk & Hold).
    assert (Hga : forall h2,
      h2 !! length h = h' !! length h ->
      getattr (VRef (length h)) "args" h2 = Ok (VRef a, h2)).
    { intros h2 E2. eapply getattr_Ok; [rewrite E2; exact Hself|].
      unfold EFBMsgCommand_fields. now simplify_map_eq. }
    assert (Hgk : forall h2,
      h2 !! length h = h' !! length h ->
      getattr (VRef (length h)) "kwargs" h2 = Ok (VRef k, h2)).
    { intros h2 E2. eapply getattr_Ok; [rewrite E2; exact Hself|].
      unfold EFBMsgCommand_fields. now simplify_map_eq. }
    exists (length h), a, k, h'.
    split; [exact E|]. split; [now apply Hga|]. split; [now apply Hgk|].
    split; [apply lookup_ge_None_2; lia|].
    split; [apply lookup_ge_None_2; lia|].
    split; [exact Ha|]. split; [exact Hk|]. split.
    + intros b f ->.
      apply list_or_None in Hargs as [[=]|(b' & items & [= <-] & Eb)].
      assert (b < length h) by (eapply lookup_lt_Some, Eb).
      unfold list_items in *. rewrite Eb in *.
      eexists. split; [apply list_update_Ok; eauto|].
      split; [eapply lookup_set; eauto|].
      split; [now rewrite list_lookup_insert_ne by lia|].
      apply Hga. now rewrite list_lookup_insert_ne by lia.
    + intros b f ->.
      apply dict_or_None in Hkwargs as [[=]|(b' & entries & [= <-] & Eb)].
      assert (b < length h) by (eapply lookup_lt_Some, Eb).
      unfold dict_entries in *. rewrite Eb in *.
      eexists. split; [apply dict_update_Ok; eauto|].
      split; [eapply lookup_set; eauto|].
      split; [now rewrite list_lookup_insert_ne by lia|].
      apply Hgk. now rewrite list_lookup_insert_ne by lia.
  - destruct (EFBMsgCommand_new_Raise h name callable_name args kwargs Hc)
      as [msg E].
    eexists. split; [exact E|reflexivity].
Qed.

(** ** [EFBMsgTargetSubstitution] *)

Section substitution.

Implicit Types (h : heap) (substitutions : pyval) (keys : list pyval).

Lemma key_ok_inv i :
  EFBMsgTargetSubstitution.key_ok i = true ->
  exists a b x y,
    i = VTuple [a; b] /\ int_value a = Some x /\ int_value b = Some y
    /\ (x < y)%Z.
Proof.
  destruct i as [| | | |items| | | |]; try discriminate.
  destruct items as [|a [|b [|c items]]]; try discriminate.
  simpl. destruct (int_value a) as [x|] eqn:Ea; [|discriminate].
  destruct (int_value b) as [y|] eqn:Eb; [|discriminate].
  intros Hlt%Z.ltb_lt. now exists a, b, x, y.
Qed.

(** The operator [%] with an accepted key on the right-hand side and one
    conversion in the template: the key is a pair, taken as two
    arguments. *)
Lemma percent_pair template i h :
  EFBMsgTargetSubstitution.key_ok i = true ->
  conversions template = 1 ->
  percent template i h
  = Raise (TypeError "not all arguments converted during string formatting").
Proof.
  intros (a & b & x & y & -> & _)%key_ok_inv Hn.
  unfold percent. now rewrite Hn.
Qed.

(** The computations of the loop that raise no [ValueError]. *)
Lemma no_ValueError_ret {A} (x : A) : no_ValueError (ret x).
Proof. intros h msg. discriminate. Qed.

Lemma no_ValueError_raise {A} e :
  kind_of e <> ValidationError -> no_ValueError (@raise A e).
Proof. intros He h msg [= ->]. now apply He. Qed.

Lemma no_ValueError_bind {A B} (m : M A) (k : A -> M B) :
  no_ValueError m -> (forall x, no_ValueError (k x)) ->
  no_ValueError (bind m k).
Proof.
  intros Hm Hk h msg. unfold bind.
  destruct (m h) as [[x h1] | e] eqn:E.
  - apply Hk.
  - intros [= ->]. now apply (Hm h msg).
Qed.

Lemma no_ValueError_get_heap : no_ValueError get_heap.
Proof. intros h msg. discriminate. Qed.

Lemma no_ValueError_dict_getitem (d k : pyval) :
  no_ValueError (dict_getitem d k).
Proof.
  intros h msg. unfold dict_getitem. now destruct (assoc _ _).
Qed.

Lemma no_ValueError_getattr v name : no_ValueError (getattr v name).
Proof.
  intros h msg. unfold getattr.
  destruct v as [| | | | | | | |a]; try discriminate.
  destruct (h !! a) as [[| |c attrs]|]; try discriminate.
  now destruct (attrs !! name).
Qed.

Lemma no_ValueError_setattr self name v : no_ValueError (setattr self name v).
Proof.
  intros h msg. unfold setattr.
  now destruct (h !! self) as [[| |c attrs]|].
Qed.

Lemma no_ValueError_percent template i : no_ValueError (percent template i).
Proof.
  intros h msg. unfold percent.
  destruct (_ =? _); [discriminate|]. now destruct (_ <? _).
Qed.

Lemma no_ValueError_check substitutions keys :
  no_ValueError (EFBMsgTargetSubstitution.check substitutions keys).
Proof.
  induction keys as [|i keys IH]; [apply no_ValueError_ret|].
  cbn [EFBMsgTargetSubstitution.check].
  destruct (EFBMsgTargetSubstitution.key_ok i) eqn:Hi; cbn [negb].
  { apply no_ValueError_bind; [apply no_ValueError_dict_getitem|intros v].
    apply no_ValueError_bind; [apply no_ValueError_get_heap|intros h0].
    destruct (isinstance h0 v EFBMsg); cbn [negb].
    - apply no_ValueError_bind; [apply no_ValueError_dict_getitem|intros v'].
      apply no_ValueError_bind; [apply no_ValueError_getattr|intros is_chat].
      apply no_ValueError_bind.
      + destruct (truthy h0 is_chat); [|apply no_ValueError_ret].
        apply no_ValueError_bind; [apply no_ValueError_dict_getitem|intros v''].
        apply no_ValueError_bind; [apply no_ValueError_getattr|intros ct].
        apply no_ValueError_ret.
      + intros [|]; [|exact IH].
        intros h msg. unfold bind.
        now rewrite percent_pair.
    - apply no_ValueError_bind; [apply no_ValueError_percent|intros s].
      now apply no_ValueError_raise. }
  apply no_ValueError_bind; [apply no_ValueError_percent|intros s].
  now apply no_ValueError_raise.
Qed.

Lemma no_ValueError_new substitutions :
  no_ValueError (EFBMsgTargetSubstitution.new substitutions).
Proof.
  unfold EFBMsgTargetSubstitution.new, instantiate. cbn [is_abstract].
  apply no_ValueError_bind; [intros h msg; discriminate|intros self].
  apply no_ValueError_bind; [|intros; apply no_ValueError_ret].
  unfold EFBMsgTargetSubstitution.__init__.
  apply no_ValueError_bind; [apply no_ValueError_get_heap|intros h0].
  destruct (isinstance_dict h0 substitutions); cbn [negb].
  - apply no_ValueError_bind; [apply no_ValueError_check|intros _].
    apply no_ValueError_setattr.
  - now apply no_ValueError_raise.
Qed.

(** The loop reads the store and leaves it as it was; when it returns,
    every key has passed the test. *)
Lemma check_Ok substitutions keys h r :
  EFBMsgTargetSubstitution.check substitutions keys h = Ok r ->
  r = (tt, h) /\
  Forall (fun i => EFBMsgTargetSubstitution.key_ok i = true) keys.
Proof.
  revert r. induction keys as [|i keys IH]; intros r E.
  - injection E as <-. now split.
  - cbn [EFBMsgTargetSubstitution.check] in E.
    destruct (EFBMsgTargetSubstitution.key_ok i) eqn:Hi; cbn [negb] in E.
    2:{ apply bind_inv in E as (s & h1 & _ & E). discriminate E. }
    apply bind_inv in E as (v & h1 & E1 & E).
    unfold dict_getitem in E1.
    destruct (assoc _ _); [|discriminate E1]. injection E1 as -> <-.
    unfold bind at 1, get_heap in E.
    destruct (isinstance h v EFBMsg); cbn [negb] in E.
    2:{ apply bind_inv in E as (s & h1 & _ & E). discriminate E. }
    apply bind_inv in E as (v' & h1 & E1 & E).
    unfold dict_getitem in E1.
    destruct (assoc _ _); [|discriminate E1]. injection E1 as -> <-.
    apply bind_inv in E as (is_chat & h1 & E1 & E).
    assert (h1 = h) as ->.
    { unfold getattr in E1.
      destruct v' as [| | | | | | | |a]; try discriminate E1.
      destruct (h !! a) as [[| |c attrs]|]; try discriminate E1.
      destruct (attrs !! "is_chat"); [|discriminate E1].
      now injection E1. }
    apply bind_inv in E as (is_group & h1 & E2 & E).
    assert (h1 = h) as ->.
    { destruct (truthy h is_chat); [|now injection E2].
      apply bind_inv in E2 as (v'' & h2 & E3 & E2).
      unfold dict_getitem in E3.
      destruct (assoc _ _); [|discriminate E3]. injection E3 as -> <-.
      apply bind_inv in E2 as (ct & h2 & E3 & E2).
      unfold getattr in E3.
      destruct v'' as [| | | | | | | |a]; try discriminate E3.
      destruct (h !! a) as [[| |c attrs]|]; try discriminate E3.
      destruct (attrs !! "chat_type"); [|discriminate E3].
      injection E3 as -> <-. now injection E2. }
    destruct is_group.
    { apply bind_inv in E as (s & h1 & _ & E). discriminate E. }
    apply IH in E as [-> Hkeys]. split; [reflexivity|].
    now constructor.
Qed.

(** A construction that returns was given a dict, kept that very dict,
    and found every key a pair of integers in increasing order. *)
Lemma EFBMsgTargetSubstitution_new_inv h substitutions r :
  EFBMsgTargetSubstitution.new substitutions h = Ok r ->
  exists d entries,
    substitutions = VRef d /\ h !! d = Some (ODict entries) /\
    r = (VRef (length h),
         h ++ [OInst EFBMsgTargetSubstitution
                 {["substitutions" := VRef d]}]) /\
    Forall (fun i => EFBMsgTargetSubstitution.key_ok i = true) (map fst entries).
Proof.
  intros (_ & h' & E & ->)%instantiate_inv.
  unfold EFBMsgTargetSubstitution.__init__, bind at 1, get_heap in E.
  rewrite isinstance_dict_new, dict_entries_new in E.
  destruct (isinstance_dict h substitutions) eqn:Hd; cbn [negb] in E;
    [|discriminate E].
  destruct substitutions as [| | | | | | | |d]; try discriminate Hd.
  unfold isinstance_dict in Hd. unfold dict_entries in E.
  destruct (h !! d) as [[|entries|]|] eqn:Ed; try discriminate Hd.
  apply bind_inv in E as (u & h1 & E1 & E).
  apply check_Ok in E1 as [[= -> ->] Hkeys].
  erewrite setattr_Ok in E by apply lookup_new.
  injection E as <-.
  exists d, entries. split; [reflexivity|]. split; [exact Ed|].
  split; [|exact Hkeys].
  f_equal. f_equal.
  replace (length h) with (length h + 0) at 1 by lia.
  rewrite insert_app_r. simpl. now rewrite insert_empty.
Qed.

Lemma EFBMsgTargetSubstitution_new_Ok h d entries :
  h !! d = Some (ODict entries) ->
  EFBMsgTargetSubstitution.check (VRef d) (map fst entries)
    (h ++ [OInst EFBMsgTargetSubstitution ∅])
  = Ok (tt, h ++ [OInst EFBMsgTargetSubstitution ∅]) ->
  EFBMsgTargetSubstitution.new (VRef d) h
  = Ok (VRef (length h),
        h ++ [OInst EFBMsgTargetSubstitution
                {["substitutions" := VRef d]}]).
Proof.
  intros Ed Hcheck. unfold EFBMsgTargetSubstitution.new.
  apply instantiate_Ok; [reflexivity|].
  unfold EFBMsgTargetSubstitution.__init__, bind at 1, get_heap.
  rewrite isinstance_dict_new, dict_entries_new.
  unfold isinstance_dict, dict_entries. rewrite Ed. cbn [negb].
  erewrite bind_Ok by exact Hcheck.
  erewrite setattr_Ok by apply lookup_new.
  replace (length h) with (length h + 0) at 1 by lia.
  rewrite insert_app_r. simpl. now rewrite insert_empty.
Qed.

End substitution.

(** C2: what the construction does on [{(0, 5): value}], from the empty
    store.  A chat object, of a user or of a group, is refused with
    [TypeError]; a message as [EFBMsg()] leaves it has no [is_chat]; a
    message that carries the attributes of a group chat is refused with the
    [TypeError] of the operator [%], which takes the key for two arguments;
    a message that carries the attributes of a user chat is accepted.  No
    construction at all raises [ValueError]. *)
Theorem EFBMsgTargetSubstitution_new_on_chats_and_groups :
  (exists msg, substitution_of (chat User) 0 5 [] = Raise (TypeError msg)) /\
  (exists msg, substitution_of (chat Group) 0 5 [] = Raise (TypeError msg)) /\
  substitution_of EFBMsg.new 0 5 [] = Raise (AttributeError "is_chat") /\
  substitution_of (message_as_chat (VBool true) (VChatType Group)) 0 5 []
  = Raise (TypeError "not all arguments converted during string formatting") /\
  (exists r,
      substitution_of (message_as_chat (VBool true) (VChatType User)) 0 5 []
      = Ok r) /\
  (forall substitutions (h : heap) e,
      EFBMsgTargetSubstitution.new substitutions h = Raise e ->
      kind_of e <> ValidationError).
Proof.
  split; [eexists; vm_compute; reflexivity|].
  split; [eexists; vm_compute; reflexivity|].
  split; [vm_compute; reflexivity|].
  split; [vm_compute; reflexivity|].
  split; [eexists; vm_compute; reflexivity|].
  intros substitutions h e E He.
  destruct e; try discriminate He.
  exact (no_ValueError_new substitutions h msg E).
Qed.

(** C3, as stated, fails.  A key with a negative start is accepted, and no
    text has it in range; and a message with the empty text is given a
    target whose keys are [(-5, -1)] and [(0, 5)]. *)
Lemma EFBMsgTargetSubstitution_accepts_out_of_range :
  ~ (forall (h : heap) substitutions self h' key,
        EFBMsgTargetSubstitution.new substitutions h = Ok (VRef self, h') ->
        key ∈ map fst (dict_entries h' substitutions) ->
        exists text, in_range text key = true) /\
  exists m target d h,
    message_with_target [] = Ok (m, h) /\
    getattr m "text" h = Ok (VStr "", h) /\
    getattr m "target" h = Ok (target, h) /\
    getattr target "substitutions" h = Ok (d, h) /\
    map fst (dict_entries h d)
    = [VTuple [VInt (-5); VInt (-1)]; VTuple [VInt 0; VInt 5]] /\
    in_range "" (VTuple [VInt (-5); VInt (-1)]) = false /\
    in_range "" (VTuple [VInt 0; VInt 5]) = false.
Proof.
  split.
  - intros H.
    (* the store and the dict the caller has before the construction *)
    let r := eval vm_compute in
      ((v <- message_as_chat (VBool true) (VChatType User) ;;
        dict_of_range (-5) (-1) v) []) in
    match r with
    | Ok (?d, ?h0) =>
        let r' := eval vm_compute in (EFBMsgTargetSubstitution.new d h0) in
        match r' with
        | Ok (_, ?h1) =>
            destruct (H h0 d 3 h1 (VTuple [VInt (-5); VInt (-1)]))
              as [text Htext]
        end
    end.
    + vm_compute. reflexivity.
    + vm_compute. apply list_elem_of_here.
    + unfold in_range in Htext. simpl in Htext. discriminate Htext.
  - let r := eval vm_compute in (message_with_target []) in
    match r with
    | Ok (?m, ?h) => exists m, (VRef 3), (VRef 2), h
    end.
    repeat split; vm_compute; reflexivity.
Qed.

(** C3, amended: when the construction returns, the substitution target
    holds the very dict it was given, and every key of that dict is a pair
    of integers [(start, end)] with [start < end].  Neither [0 <= start]
    nor [end <= len(text)] is tested: the constructor is given no text. *)
Theorem EFBMsgTargetSubstitution_keys_increasing
  (h : heap) (substitutions : pyval) (self : addr) (h' : heap) :
  EFBMsgTargetSubstitution.new substitutions h = Ok (VRef self, h') ->
  getattr (VRef self) "substitutions" h' = Ok (substitutions, h') /\
  dict_entries h' substitutions = dict_entries h substitutions /\
  forall key,
    key ∈ map fst (dict_entries h' substitutions) ->
    exists a b start end_,
      key = VTuple [a; b] /\
      int_value a = Some start /\ int_value b = Some end_ /\
      (start < end_)%Z.
Proof.
  intros (d & entries & -> & Ed & [= -> ->] & Hkeys)
    %EFBMsgTargetSubstitution_new_inv.
  split; [|split].
  - eapply getattr_Ok; [apply lookup_new|]. apply lookup_singleton_eq.
  - apply dict_entries_new.
  - intros key Hkey. rewrite dict_entries_new in Hkey.
    unfold dict_entries in Hkey. rewrite Ed in Hkey.
    rewrite Forall_forall in Hkeys.
    now apply key_ok_inv, Hkeys.
Qed.

(** C10: on a dict with no entry the construction succeeds, and the
    substitution target holds that dict, still empty. *)
Theorem EFBMsgTargetSubstitution_new_empty (h : heap) (d : addr) :
  h !! d = Some (ODict []) ->
  exists self h',
    EFBMsgTargetSubstitution.new (VRef d) h = Ok (VRef self, h') /\
    getattr (VRef self) "substitutions" h' = Ok (VRef d, h') /\
    dict_entries h' (VRef d) = [].
Proof.
  intros Ed. eexists _, _.
  split; [now apply (EFBMsgTargetSubstitution_new_Ok h d [])|].
  split.
  - eapply getattr_Ok; [apply lookup_new|]. apply lookup_singleton_eq.
  - rewrite dict_entries_new. unfold dict_entries. now rewrite Ed.
Qed.

(** ** The theorems at concrete inputs *)

(** [EFBMsgCommand("Vote", "vote", [1], {"k": 2})] *)
Lemma EFBMsgCommand_new_stores_builtin_callable_witness :
  let h := [OList [VInt 1]; ODict [(VStr "k", VInt 2)]] in
  is_None (VRef 0) || isinstance_list h (VRef 0) = true /\
  is_None (VRef 1) || isinstance_dict h (VRef 1) = true /\
  exists self h',
    EFBMsgCommand.new (VStr "Vote") (VStr "vote") (VRef 0) (VRef 1) h
    = Ok (VRef self, h') /\
    getattr (VRef self) "name" h' = Ok (VStr "Vote", h') /\
    getattr (VRef self) "callable" h' = Ok (VBuiltin "callable", h') /\
    VBuiltin "callable" <> VStr "vote".
Proof.
  intros h. split; [reflexivity|]. split; [reflexivity|].
  apply (EFBMsgCommand_new_stores_builtin_callable
           h "Vote" "vote" (VRef 0) (VRef 1)); reflexivity.
Defined.

(** [EFBMsgCommand("Vote", "vote", [1], {"k": 2})], and
    [EFBMsgCommand("Vote", 5)]. *)
Lemma EFBMsgCommand_new_spec_witness :
  let h := [OList [VInt 1]; ODict [(VStr "k", VInt 2)]] in
  (exists self a k h',
      EFBMsgCommand.new (VStr "Vote") (VStr "vote") (VRef 0) (VRef 1) h
      = Ok (VRef self, h') /\
      getattr (VRef self) "args" h' = Ok (VRef a, h') /\
      getattr (VRef self) "kwargs" h' = Ok (VRef k, h') /\
      h !! a = None /\ h !! k = None /\
      h' !! a = Some (OList [VInt 1]) /\
      h' !! k = Some (ODict [(VStr "k", VInt 2)]) /\
      (forall b f, VRef 0 = VRef b ->
         exists h'',
           list_update b f h' = Ok (tt, h'') /\
           h'' !! b = Some (OList (f [VInt 1])) /\
           h'' !! a = Some (OList [VInt 1]) /\
           getattr (VRef self) "args" h'' = Ok (VRef a, h'')) /\
      (forall b f, VRef 1 = VRef b ->
         exists h'',
           dict_update b f h' = Ok (tt, h'') /\
           h'' !! b = Some (ODict (f [(VStr "k", VInt 2)])) /\
           h'' !! k = Some (ODict [(VStr "k", VInt 2)]) /\
           getattr (VRef self) "kwargs" h'' = Ok (VRef k, h''))) /\
  (exists e,
      EFBMsgCommand.new (VStr "Vote") (VInt 5) VNone VNone [] = Raise e
      /\ kind_of e = TypeErrorKind).
Proof.
  intros h. split.
  - exact (EFBMsgCommand_new_spec
             h (VStr "Vote") (VStr "vote") (VRef 0) (VRef 1)).
  - exact (EFBMsgCommand_new_spec [] (VStr "Vote") (VInt 5) VNone VNone).
Defined.

(** [EFBMsgLinkAttribute(title="Example", url="https://example.com")], and
    the same without the url. *)
Lemma EFBMsgLinkAttribute_new_spec_witness :
  (exists self h',
      EFBMsgLinkAttribute.new
        (VStr "Example") VNone VNone (VStr "https://example.com") []
      = Ok (VRef self, h') /\
      getattr (VRef self) "title" h' = Ok (VStr "Example", h') /\
      getattr (VRef self) "url" h' = Ok (VStr "https://example.com", h') /\
      getattr (VRef self) "description" h' = Ok (VNone, h') /\
      getattr (VRef self) "image" h' = Ok (VNone, h')) /\
  (exists e,
      EFBMsgLinkAttribute.new (VStr "Example") VNone VNone VNone [] = Raise e
      /\ kind_of e = ValidationError).
Proof.
  split.
  - exact (EFBMsgLinkAttribute_new_spec
             [] (VStr "Example") VNone VNone (VStr "https://example.com")).
  - exact (EFBMsgLinkAttribute_new_spec [] (VStr "Example") VNone VNone VNone).
Defined.

(** [EFBMsgCommandAttribute([command])] for a command, and
    [EFBMsgCommandAttribute([])]. *)
Lemma EFBMsgCommandAttribute_new_spec_witness :
  let h := [OInst EFBMsgCommand ∅; OList [VRef 0]; OList []] in
  (exists self c h',
      EFBMsgCommandAttribute.new (VRef 1) h = Ok (VRef self, h') /\
      getattr (VRef self) "commands" h' = Ok (VRef c, h') /\
      c <> 1 /\ h !! c = None /\
      h' !! c = Some (OList [VRef 0]) /\
      forall f, exists h'',
        list_update 1 f h' = Ok (tt, h'') /\
        h'' !! 1 = Some (OList (f [VRef 0])) /\
        h'' !! c = Some (OList [VRef 0]) /\
        getattr (VRef self) "commands" h'' = Ok (VRef c, h'')) /\
  (exists e, EFBMsgCommandAttribute.new (VRef 2) h = Raise e
             /\ kind_of e = ValidationError).
Proof.
  intros h. split.
  - apply (proj1 (EFBMsgCommandAttribute_new_spec h (VRef 1)) 1 [VRef 0]);
      [reflexivity|reflexivity|discriminate|].
    repeat constructor.
  - apply (proj1 (proj2 (proj2 (EFBMsgCommandAttribute_new_spec h (VRef 2))))).
    reflexivity.
Defined.

(** The target of [{(-5, -1): m}] for a message [m] with [m.is_chat] set
    to [False]. *)
Lemma EFBMsgTargetSubstitution_keys_increasing_witness :
  let key := VTuple [VInt (-5); VInt (-1)] in
  let h := [OInst EFBMsg {["is_chat" := VBool false]};
            ODict [(key, VRef 0)]] in
  let h' := h ++ [OInst EFBMsgTargetSubstitution
                    {["substitutions" := VRef 1]}] in
  EFBMsgTargetSubstitution.new (VRef 1) h = Ok (VRef 2, h') /\
  getattr (VRef 2) "substitutions" h' = Ok (VRef 1, h') /\
  dict_entries h' (VRef 1) = dict_entries h (VRef 1) /\
  forall key,
    key ∈ map fst (dict_entries h' (VRef 1)) ->
    exists a b start end_,
      key = VTuple [a; b] /\
      int_value a = Some start /\ int_value b = Some end_ /\
      (start < end_)%Z.
Proof.
  intros key h h'.
  assert (E : EFBMsgTargetSubstitution.new (VRef 1) h = Ok (VRef 2, h'))
    by (vm_compute; reflexivity).
  split; [exact E|].
  exact (EFBMsgTargetSubstitution_keys_increasing h (VRef 1) 2 h' E).
Defined.

(** [EFBMsgTargetSubstitution({})] *)
Lemma EFBMsgTargetSubstitution_new_empty_witness :
  [ODict []] !! 0 = Some (ODict []) /\
  exists self h',
    EFBMsgTargetSubstitution.new (VRef 0) [ODict []] = Ok (VRef self, h') /\
    getattr (VRef self) "substitutions" h' = Ok (VRef 0, h') /\
    dict_entries h' (VRef 0) = [].
Proof.
  split; [reflexivity|].
  apply (EFBMsgTargetSubstitution_new_empty [ODict []] 0). reflexivity.
Defined.

(** ** What no constructor does to the store *)

Section frame.

Implicit Types (h : heap) (self : addr).

Lemma keeps_refl self h : keeps self h h.
Proof. split; eauto. Qed.

Lemma keeps_trans self h1 h2 h3 :
  keeps self h1 h2 -> keeps self h2 h3 -> keeps self h1 h3.
Proof.
  intros [H1 S1] [H2 S2]. split.
  - eauto.
  - intros c attrs E. apply S1 in E as [attrs' E]. eauto.
Qed.

Lemma keeps_alloc self h o : keeps self h (h ++ [o]).
Proof.
  split.
  - intros x o' _. apply lookup_app_l_Some.
  - intros c attrs E. exists attrs. now apply lookup_app_l_Some.
Qed.

Lemma keeps_store_ret {A} self (x : A) : keeps_store self (ret x).
Proof. intros h y h' E. injection E as _ <-. apply keeps_refl. Qed.

Lemma keeps_store_raise {A} self e : keeps_store self (@raise A e).
Proof. intros h y h' E. discriminate E. Qed.

Lemma keeps_store_get_heap self : keeps_store self get_heap.
Proof. intros h y h' E. injection E as _ <-. apply keeps_refl. Qed.

Lemma keeps_store_bind {A B} self (m : M A) (k : A -> M B) :
  keeps_store self m -> (forall x, keeps_store self (k x)) ->
  keeps_store self (bind m k).
Proof.
  intros Hm Hk h y h' (x & h1 & E1 & E2)%bind_inv.
  eapply keeps_trans; [eapply Hm, E1|eapply Hk, E2].
Qed.

Lemma keeps_store_setattr self name v : keeps_store self (setattr self name v).
Proof.
  intros h y h' E. unfold setattr in E.
  destruct (h !! self) as [[| |c attrs]|] eqn:Eself; try discriminate E.
  injection E as _ <-. split.
  - intros x o Hx Ex. now rewrite list_lookup_insert_ne.
  - intros c' attrs' E. rewrite Eself in E. injection E as <- <-.
    eexists. eapply lookup_set, Eself.
Qed.

Lemma keeps_store_alloc self o : keeps_store self (alloc o).
Proof. intros h y h' E. injection E as _ <-. apply keeps_alloc. Qed.

Lemma keeps_store_new_list self : keeps_store self new_list.
Proof. intros h y h' E. injection E as _ <-. apply keeps_alloc. Qed.

Lemma keeps_store_new_dict self : keeps_store self new_dict.
Proof. intros h y h' E. injection E as _ <-. apply keeps_alloc. Qed.

Lemma keeps_store_list_copy self v : keeps_store self (list_copy v).
Proof.
  intros h y h' E. unfold list_copy in E.
  destruct v as [| | | | | | | |a]; try discriminate E.
  destruct (h !! a) as [[items| |]|]; try discriminate E.
  injection E as _ <-. apply keeps_alloc.
Qed.

Lemma keeps_store_dict_copy self v : keeps_store self (dict_copy v).
Proof.
  intros h y h' E. unfold dict_copy in E.
  destruct v as [| | | | | | | |a]; try discriminate E.
  destruct (h !! a) as [[|entries|]|]; try discriminate E.
  injection E as _ <-. apply keeps_alloc.
Qed.

Lemma keeps_store_check self substitutions keys :
  keeps_store self (EFBMsgTargetSubstitution.check substitutions keys).
Proof.
  intros h y h' E. apply check_Ok in E as [[= _ <-] _]. apply keeps_refl.
Qed.

End frame.

(** The steps of an initialiser, one after the other. *)
Ltac keeps_steps :=
  repeat match goal with
  | |- keeps_store _ (setattr _ _ _) => apply keeps_store_setattr
  | |- keeps_store _ (ret _) => apply keeps_store_ret
  | |- keeps_store _ (raise _) => apply keeps_store_raise
  | |- keeps_store _ get_heap => apply keeps_store_get_heap
  | |- keeps_store _ new_list => apply keeps_store_new_list
  | |- keeps_store _ new_dict => apply keeps_store_new_dict
  | |- keeps_store _ (list_copy _) => apply keeps_store_list_copy
  | |- keeps_store _ (dict_copy _) => apply keeps_store_dict_copy
  | |- keeps_store _ (EFBMsgTargetSubstitution.check _ _) =>
      apply keeps_store_check
  | |- keeps_store _ (bind _ _) => apply keeps_store_bind; [|intros ?]
  | |- keeps_store _ (if ?b then _ else _) => destruct b
  | |- keeps_store _ (match ?l with [] => _ | _ :: _ => _ end) => destruct l
  end.

Lemma keeps_store_init (c : call) :
  exists init,
    run c = instantiate (class_of c) init /\
    forall self, keeps_store self (init self).
Proof.
  destruct c.
  - eexists. split; [reflexivity|]. intros self.
    unfold EFBMsg.__init__. keeps_steps.
  - exists (fun self =>
              match args with
              | [] => EFBMsgAttribute.__init__ self
              | _ => raise (TypeError "__init__() takes 1 positional argument")
              end).
    split; [reflexivity|]. intros self.
    unfold EFBMsgAttribute.__init__. keeps_steps.
  - eexists. split; [reflexivity|]. intros self. cbv beta.
    unfold EFBMsgLinkAttribute.__init__. keeps_steps.
  - eexists. split; [reflexivity|]. intros self. cbv beta.
    unfold EFBMsgLocationAttribute.__init__. keeps_steps.
  - eexists. split; [reflexivity|]. intros self. cbv beta.
    unfold EFBMsgCommand.__init__. keeps_steps.
  - eexists. split; [reflexivity|]. intros self. cbv beta.
    unfold EFBMsgCommandAttribute.__init__. keeps_steps.
  - eexists. split; [reflexivity|]. intros self. cbv beta.
    unfold EFBMsgStatusAttribute.__init__. keeps_steps.
  - exists (fun self =>
              match args with
              | [] => EFBMsgTarget.__init__ self
              | _ => raise (TypeError "__init__() takes 1 positional argument")
              end).
    split; [reflexivity|]. intros self.
    unfold EFBMsgTarget.__init__. keeps_steps.
  - eexists. split; [reflexivity|]. intros self. cbv beta.
    unfold EFBMsgTargetMessage.__init__. keeps_steps.
  - eexists. split; [reflexivity|]. intros self. cbv beta.
    unfold EFBMsgTargetSubstitution.__init__. keeps_steps.
Qed.

(** A class call that returns: the new instance is at the first unused
    address, and the objects of the store are as they were. *)
Lemma run_Ok (c : call) (h : heap) v h' :
  run c h = Ok (v, h') ->
  v = VRef (length h) /\
  is_abstract (class_of c) = false /\
  (exists attrs, h' !! length h = Some (OInst (class_of c) attrs)) /\
  forall x o, h !! x = Some o -> h' !! x = Some o.
Proof.
  destruct (keeps_store_init c) as (init & -> & Hinit).
  intros (Hc & h1 & E & [= -> ->])%instantiate_inv.
  apply Hinit in E as [Hother Hself].
  split; [reflexivity|]. split; [exact Hc|]. split.
  - eapply Hself, lookup_new.
  - intros x o Ex. apply Hother; [eapply old_is_not_new, Ex|].
    now apply lookup_app_l_Some.
Qed.

(** X1: a class call that returns has changed no object of the store it
    was given: whatever was at an address before the call is there after
    it.  In particular no constructor alters a list, a dict or a message
    passed to it. *)
Theorem construction_changes_no_object (c : call) (h : heap) v h' :
  run c h = Ok (v, h') ->
  forall x o, h !! x = Some o -> h' !! x = Some o.
Proof. intros E. now apply run_Ok in E. Qed.

Lemma issubclass_refl c : issubclass c c = true.
Proof. now destruct c. Qed.

(** X2: a class call that returns gives a reference that was not in the
    store before, to an instance of the class called.  The class is never
    one of the two abstract bases; an instance of an attribute class is an
    instance of [EFBMsgAttribute], an instance of a target class is an
    instance of [EFBMsgTarget], and nothing is an instance of both. *)
Theorem construction_returns_new_instance (c : call) (h : heap) v h' :
  run c h = Ok (v, h') ->
  exists self,
    v = VRef self /\ h !! self = None /\
    isinstance h' v (class_of c) = true /\
    class_of c <> EFBMsgAttribute /\ class_of c <> EFBMsgTarget /\
    (forall b, base (class_of c) = Some b -> isinstance h' v b = true) /\
    isinstance h' v EFBMsgAttribute && isinstance h' v EFBMsgTarget = false.
Proof.
  intros (-> & Hc & (attrs & Eself) & _)%run_Ok.
  exists (length h). split; [reflexivity|].
  split; [now apply lookup_ge_None_2|].
  unfold isinstance. rewrite Eself.
  split; [apply issubclass_refl|].
  split; [now intros E; rewrite E in Hc|].
  split; [now intros E; rewrite E in Hc|].
  split.
  - intros b Hb. unfold issubclass. rewrite Hb.
    destruct b; try reflexivity; now destruct (class_of c).
  - now destruct (class_of c).
Qed.

(** ** The constructors that test nothing *)

Lemma EFBMsgLocationAttribute_new_Ok (h : heap) latitude longitude :
  EFBMsgLocationAttribute.new latitude longitude h
  = Ok (VRef (length h),
        h ++ [OInst EFBMsgLocationAttribute
                (<["longitude" := longitude]> {["latitude" := latitude]})]).
Proof.
  unfold EFBMsgLocationAttribute.new.
  apply instantiate_Ok; [reflexivity|].
  unfold EFBMsgLocationAttribute.__init__. assign.
  erewrite setattr_Ok by (eapply lookup_set, lookup_new).
  rewrite list_insert_insert_eq.
  replace (length h) with (length h + 0) by lia.
  rewrite insert_app_r. simpl. now rewrite insert_empty.
Qed.

Lemma EFBMsgStatusAttribute_new_Ok (h : heap) status_type :
  EFBMsgStatusAttribute.new status_type h
  = Ok (VRef (length h),
        h ++ [OInst EFBMsgStatusAttribute {["status_type" := status_type]}]).
Proof.
  unfold EFBMsgStatusAttribute.new.
  apply instantiate_Ok; [reflexivity|].
  unfold EFBMsgStatusAttribute.__init__.
  erewrite setattr_Ok by apply lookup_new.
  replace (length h) with (length h + 0) by lia.
  rewrite insert_app_r. simpl. now rewrite insert_empty.
Qed.

Lemma EFBMsgTargetMessage_new_Ok (h : heap) message :
  EFBMsgTargetMessage.new message h
  = Ok (VRef (length h),
        h ++ [OInst EFBMsgTargetMessage {["message" := message]}]).
Proof.
  unfold EFBMsgTargetMessage.new.
  apply instantiate_Ok; [reflexivity|].
  unfold EFBMsgTargetMessage.__init__.
  erewrite setattr_Ok by apply lookup_new.
  replace (length h) with (length h + 0) by lia.
  rewrite insert_app_r. simpl. now rewrite insert_empty.
Qed.

(** X3: a location attribute, a status attribute and a message target
    are constructed from any values at all, in any store, and hold them as
    given: the latitude and the longitude are not tested to be numbers or
    to be in a range, the status is not tested to be one of the five
    constants, the target is not tested to be a message. *)
Theorem constructors_without_tests_succeed (h : heap) (x y : pyval) :
  (exists self h',
      EFBMsgLocationAttribute.new x y h = Ok (VRef self, h') /\
      getattr (VRef self) "latitude" h' = Ok (x, h') /\
      getattr (VRef self) "longitude" h' = Ok (y, h')) /\
  (exists self h',
      EFBMsgStatusAttribute.new x h = Ok (VRef self, h') /\
      getattr (VRef self) "status_type" h' = Ok (x, h')) /\
  (exists self h',
      EFBMsgTargetMessage.new x h = Ok (VRef self, h') /\
      getattr (VRef self) "message" h' = Ok (x, h')).
Proof.
  split; [|split].
  - eexists _, _. split; [apply EFBMsgLocationAttribute_new_Ok|].
    split; (eapply getattr_Ok; [apply lookup_new|]); now simplify_map_eq.
  - eexists _, _. split; [apply EFBMsgStatusAttribute_new_Ok|].
    eapply getattr_Ok; [apply lookup_new|]. apply lookup_singleton_eq.
  - eexists _, _. split; [apply EFBMsgTargetMessage_new_Ok|].
    eapply getattr_Ok; [apply lookup_new|]. apply lookup_singleton_eq.
Qed.

(** X4: a message target holds the message it was given, not a copy: an
    attribute assigned to the message after the target was made is read
    through the target. *)
Theorem EFBMsgTargetMessage_shares_message
  (h : heap) (m : addr) c attrs (name : string) (v : pyval) :
  h !! m = Some (OInst c attrs) ->
  exists target h' h'',
    EFBMsgTargetMessage.new (VRef m) h = Ok (VRef target, h') /\
    setattr m name v h' = Ok (tt, h'') /\
    getattr (VRef target) "message" h'' = Ok (VRef m, h'') /\
    getattr (VRef m) name h'' = Ok (v, h'').
Proof.
  intros Em. assert (m <> length h) by (eapply old_is_not_new, Em).
  eexists _, _, _. split; [apply EFBMsgTargetMessage_new_Ok|].
  split; [apply setattr_Ok, lookup_app_l_Some, Em|]. split.
  - eapply getattr_Ok;
      [rewrite list_lookup_insert_ne by done; apply lookup_new|].
    apply lookup_singleton_eq.
  - eapply getattr_Ok; [eapply lookup_set, lookup_app_l_Some, Em|].
    apply lookup_insert_eq.
Qed.

(** ** Containers made by the constructors *)

(** X5: every message gets a [vendor_specific] dict of its own.  Two
    messages made one after the other hold two different empty dicts, and
    a change of the dict of the first leaves the dict of the second
    empty. *)
Theorem EFBMsg_vendor_specific_not_shared (h : heap) :
  exists m1 h1 m2 h2 d1 d2,
    EFBMsg.new h = Ok (VRef m1, h1) /\
    EFBMsg.new h1 = Ok (VRef m2, h2) /\
    getattr (VRef m1) "vendor_specific" h2 = Ok (VRef d1, h2) /\
    getattr (VRef m2) "vendor_specific" h2 = Ok (VRef d2, h2) /\
    d1 <> d2 /\ h !! d1 = None /\ h !! d2 = None /\
    h2 !! d1 = Some (ODict []) /\ h2 !! d2 = Some (ODict []) /\
    forall f, exists h3,
      dict_update d1 f h2 = Ok (tt, h3) /\
      h3 !! d1 = Some (ODict (f [])) /\
      h3 !! d2 = Some (ODict []) /\
      getattr (VRef m2) "vendor_specific" h3 = Ok (VRef d2, h3).
Proof.
  pose (o1 := OInst EFBMsg (EFBMsg_defaults (VRef (S (length h))) ∅)).
  pose (h1 := h ++ [o1; ODict []]).
  pose (o2 := OInst EFBMsg (EFBMsg_defaults (VRef (S (length h1))) ∅)).
  pose (h2 := h1 ++ [o2; ODict []]).
  assert (L1 : length h1 = S (S (length h)))
    by (unfold h1; rewrite length_app; simpl; lia).
  assert (E1 : h1 !! length h = Some o1) by now apply list_lookup_middle.
  assert (E1d : h1 !! S (length h) = Some (ODict [])).
  { unfold h1. rewrite lookup_app_r by lia.
    now replace (S (length h) - length h) with 1 by lia. }
  assert (E2 : h2 !! length h1 = Some o2) by now apply list_lookup_middle.
  assert (E2d : h2 !! S (length h1) = Some (ODict [])).
  { unfold h2. rewrite lookup_app_r by lia.
    now replace (S (length h1) - length h1) with 1 by lia. }
  exists (length h), h1, (length h1), h2, (S (length h)), (S (length h1)).
  split; [apply EFBMsg_new_Ok|]. split; [apply EFBMsg_new_Ok|].
  split; [eapply getattr_Ok; [apply lookup_app_l_Some, E1|reflexivity]|].
  split; [eapply getattr_Ok; [apply E2|reflexivity]|].
  split; [lia|].
  split; [apply lookup_ge_None_2; lia|].
  split; [apply lookup_ge_None_2; lia|].
  split; [apply lookup_app_l_Some, E1d|]. split; [exact E2d|].
  intros f. eexists.
  split; [apply dict_update_Ok, lookup_app_l_Some, E1d|].
  split; [eapply lookup_set, lookup_app_l_Some, E1d|].
  split; [now rewrite list_lookup_insert_ne by lia|].
  eapply getattr_Ok;
    [rewrite list_lookup_insert_ne by lia; exact E2|reflexivity].
Qed.

(** X6: a command made without [args] and [kwargs] gets an empty list and
    an empty dict of its own.  Two such commands made one after the other
    hold different lists and different dicts, and a change of the list of
    the first leaves the list of the second empty. *)
Theorem EFBMsgCommand_defaults_not_shared (h : heap) (n1 c1 n2 c2 : string) :
  exists m1 h1 m2 h2 a1 a2 k1 k2,
    EFBMsgCommand.new (VStr n1) (VStr c1) VNone VNone h = Ok (VRef m1, h1) /\
    EFBMsgCommand.new (VStr n2) (VStr c2) VNone VNone h1 = Ok (VRef m2, h2) /\
    getattr (VRef m1) "args" h2 = Ok (VRef a1, h2) /\
    getattr (VRef m2) "args" h2 = Ok (VRef a2, h2) /\
    getattr (VRef m1) "kwargs" h2 = Ok (VRef k1, h2) /\
    getattr (VRef m2) "kwargs" h2 = Ok (VRef k2, h2) /\
    a1 <> a2 /\ k1 <> k2 /\
    h2 !! a1 = Some (OList []) /\ h2 !! a2 = Some (OList []) /\
    h2 !! k1 = Some (ODict []) /\ h2 !! k2 = Some (ODict []) /\
    forall f, exists h3,
      list_update a1 f h2 = Ok (tt, h3) /\
      h3 !! a1 = Some (OList (f [])) /\
      h3 !! a2 = Some (OList []).
Proof.
  destruct (EFBMsgCommand_new_Ok h n1 c1 VNone VNone eq_refl eq_refl)
    as (a1 & k1 & h1 & E1 & S1 & A1 & K1 & La1 & Lk1 & _).
  destruct (EFBMsgCommand_new_Ok h1 n2 c2 VNone VNone eq_refl eq_refl)
    as (a2 & k2 & h2 & E2 & S2 & A2 & K2 & La2 & Lk2 & Hold).
  assert (a1 < length h1) by (eapply lookup_lt_Some, A1).
  assert (k1 < length h1) by (eapply lookup_lt_Some, K1).
  exists (length h), h1, (length h1), h2, a1, a2, k1, k2.
  split; [exact E1|]. split; [exact E2|].
  split; [eapply getattr_Ok; [apply Hold, S1|];
          unfold EFBMsgCommand_fields; now simplify_map_eq|].
  split; [eapply getattr_Ok; [apply S2|];
          unfold EFBMsgCommand_fields; now simplify_map_eq|].
  split; [eapply getattr_Ok; [apply Hold, S1|];
          unfold EFBMsgCommand_fields; now simplify_map_eq|].
  split; [eapply getattr_Ok; [apply S2|];
          unfold EFBMsgCommand_fields; now simplify_map_eq|].
  split; [lia|]. split; [lia|].
  split; [apply Hold, A1|]. split; [exact A2|].
  split; [apply Hold, K1|]. split; [exact K2|].
  intros f. eexists.
  split; [apply list_update_Ok, Hold, A1|].
  split; [eapply lookup_set, Hold, A1|].
  rewrite list_lookup_insert_ne by lia. exact A2.
Qed.

(** ** The tests of [EFBMsgCommand], one after the other *)

(** The call of [__init__] the class call makes, with the omitted
    containers made: the tests see a list for an omitted [args] and a dict
    for an omitted [kwargs]. *)
Lemma EFBMsgCommand_new_tests_on (h : heap) name callable_name args kwargs :
  exists args' kwargs' (h1 : heap),
    is_None args' = false /\ is_None kwargs' = false /\
    EFBMsgCommand.__init__ (length h) name callable_name args kwargs
      (h ++ [OInst EFBMsgCommand ∅])
    = EFBMsgCommand.__init__ (length h) name callable_name args' kwargs' h1 /\
    isinstance_list h1 args' = is_None args || isinstance_list h args /\
    isinstance_dict h1 kwargs' = is_None kwargs || isinstance_dict h kwargs.
Proof.
  destruct (is_None args) eqn:Hargs; destruct (is_None kwargs) eqn:Hkwargs;
    try apply is_None_true in Hargs as ->;
    try apply is_None_true in Hkwargs as ->;
    cbn [orb]; eexists _, _, _.
  - split; [|split; [|split; [|split]]].
    3:{ rewrite EFBMsgCommand_init_args_None.
        now rewrite EFBMsgCommand_init_kwargs_None. }
    + reflexivity.
    + reflexivity.
    + now rewrite isinstance_list_ext, isinstance_list_last.
    + apply isinstance_dict_last.
  - split; [|split; [|split; [|split]]].
    3:{ now rewrite EFBMsgCommand_init_args_None. }
    + reflexivity.
    + exact Hkwargs.
    + apply isinstance_list_last.
    + now rewrite !isinstance_dict_ext.
  - split; [|split; [|split; [|split]]].
    3:{ now rewrite EFBMsgCommand_init_kwargs_None. }
    + exact Hargs.
    + reflexivity.
    + now rewrite !isinstance_list_ext.
    + apply isinstance_dict_last.
  - split; [|split; [|split; [|split]]].
    3:{ reflexivity. }
    + exact Hargs.
    + exact Hkwargs.
    + now rewrite isinstance_list_ext.
    + now rewrite isinstance_dict_ext.
Qed.

(** X7: the four tests of a command are made in the order of the
    parameters, and the first that fails gives the error: the message
    names [name] when [name] is not a string, whatever the other arguments
    are; it names [callable] only when [name] is a string, [args] only
    when both are strings, and [kwargs] only when nothing else is wrong. *)
Theorem EFBMsgCommand_new_first_error
  (h : heap) (name callable_name args kwargs : pyval) :
  (isinstance_str name = false ->
   EFBMsgCommand.new name callable_name args kwargs h
   = Raise (TypeError "name must be a string.")) /\
  (isinstance_str name = true -> isinstance_str callable_name = false ->
   EFBMsgCommand.new name callable_name args kwargs h
   = Raise (TypeError "callable must be a string.")) /\
  (isinstance_str name = true -> isinstance_str callable_name = true ->
   is_None args || isinstance_list h args = false ->
   EFBMsgCommand.new name callable_name args kwargs h
   = Raise (TypeError "args must be a list.")) /\
  (isinstance_str name = true -> isinstance_str callable_name = true ->
   is_None args || isinstance_list h args = true ->
   is_None kwargs || isinstance_dict h kwargs = false ->
   EFBMsgCommand.new name callable_name args kwargs h
   = Raise (TypeError "kwargs must be a dict.")).
Proof.
  destruct (EFBMsgCommand_new_tests_on h name callable_name args kwargs)
    as (args' & kwargs' & h1 & Na & Nk & E & <- & <-).
  unfold EFBMsgCommand.new.
  repeat split; intros; (apply instantiate_Raise; [reflexivity|]);
    rewrite E; unfold EFBMsgCommand.__init__; rewrite Na, Nk;
    unfold bind at 1 2 3, ret, get_heap;
    repeat match goal with H : _ = _ |- _ => rewrite H end;
    reflexivity.
Qed.

(** ** Commands in a command attribute *)

(** What a command attribute is made of when the construction returns. *)
Lemma EFBMsgCommandAttribute_new_inv (h : heap) commands r :
  EFBMsgCommandAttribute.new commands h = Ok r ->
  exists a items,
    commands = VRef a /\ h !! a = Some (OList items) /\
    forallb (fun i => isinstance h i EFBMsgCommand) items = true /\
    r = (VRef (length h),
         h ++ [OInst EFBMsgCommandAttribute
                 {["commands" := VRef (S (length h))]};
               OList items]).
Proof.
  rewrite EFBMsgCommandAttribute_new_test.
  destruct (_ && _ && _) eqn:Hc; [|discriminate].
  apply andb_prop in Hc as [[Hl _]%andb_prop Hall].
  destruct commands as [| | | | | | | |a]; try discriminate Hl.
  unfold isinstance_list in Hl. unfold list_items in *.
  destruct (h !! a) as [[items| |]|] eqn:E; try discriminate Hl.
  intros [= <-]. now exists a, items.
Qed.

(** X8: a command as [EFBMsgCommand] returns it is accepted in a command
    attribute.  For every command that can be constructed, the list
    [[command]] makes a command attribute, which holds a list with that
    very command, and the name given to the command is read from it. *)
Theorem EFBMsgCommandAttribute_accepts_new_command
  (h : heap) (n cn : string) (args kwargs : pyval) :
  is_None args || isinstance_list h args = true ->
  is_None kwargs || isinstance_dict h kwargs = true ->
  exists command h1 attribute h2 c,
    EFBMsgCommand.new (VStr n) (VStr cn) args kwargs h
    = Ok (VRef command, h1) /\
    (l <- alloc (OList [VRef command]) ;;
     EFBMsgCommandAttribute.new (VRef l)) h1
    = Ok (VRef attribute, h2) /\
    getattr (VRef attribute) "commands" h2 = Ok (VRef c, h2) /\
    h2 !! c = Some (OList [VRef command]) /\
    getattr (VRef command) "name" h2 = Ok (VStr n, h2).
Proof.
  intros Hargs Hkwargs.
  destruct (EFBMsgCommand_new_Ok h n cn args kwargs Hargs Hkwargs)
    as (a & k & h1 & E1 & Hself & _).
  pose (h1' := h1 ++ [OList [VRef (length h)]]).
  assert (Ecmd : h1' !! length h
                 = Some (OInst EFBMsgCommand
                           (EFBMsgCommand_fields (VStr n) (VRef a) (VRef k) ∅)))
    by apply lookup_app_l_Some, Hself.
  assert (El : h1' !! length h1 = Some (OList [VRef (length h)]))
    by apply lookup_new.
  assert (E2 : EFBMsgCommandAttribute.new (VRef (length h1)) h1'
               = Ok (VRef (length h1'),
                     h1' ++ [OInst EFBMsgCommandAttribute
                               {["commands" := VRef (S (length h1'))]};
                             OList [VRef (length h)]])).
  { rewrite EFBMsgCommandAttribute_new_test.
    unfold isinstance_list, list_items. rewrite El.
    cbn [forallb length Nat.ltb Nat.leb andb]. unfold isinstance.
    now rewrite Ecmd. }
  eexists (length h), h1, (length h1'), _, (S (length h1')).
  split; [exact E1|]. split; [exact E2|]. split; [|split].
  - eapply getattr_Ok; [now apply list_lookup_middle|].
    apply lookup_singleton_eq.
  - rewrite lookup_app_r by lia.
    now replace (S (length h1') - length h1') with 1 by lia.
  - eapply getattr_Ok; [apply lookup_app_l_Some, Ecmd|].
    unfold EFBMsgCommand_fields. now simplify_map_eq.
Qed.

(** X9: the list a command attribute keeps is a copy one level deep: its
    items are the caller's command objects themselves.  An attribute
    assigned to one of the commands after the construction is read from
    the command the attribute holds. *)
Theorem EFBMsgCommandAttribute_shares_commands
  (h : heap) (commands : pyval) (self : addr) (h' : heap)
  (b : addr) (name : string) (v : pyval) :
  EFBMsgCommandAttribute.new commands h = Ok (VRef self, h') ->
  VRef b ∈ list_items h commands ->
  exists c h'',
    setattr b name v h' = Ok (tt, h'') /\
    getattr (VRef self) "commands" h'' = Ok (VRef c, h'') /\
    VRef b ∈ list_items h'' (VRef c) /\
    getattr (VRef b) name h'' = Ok (v, h'').
Proof.
  intros (a & items & -> & Ea & Hall & [= -> ->])
    %EFBMsgCommandAttribute_new_inv Hb.
  unfold list_items in Hb. rewrite Ea in Hb.
  rewrite forallb_forall in Hall.
  assert (Hi := Hall (VRef b) (proj1 (list_elem_of_In _ _) Hb)).
  unfold isinstance in Hi.
  destruct (h !! b) as [[| |cls attrs]|] eqn:Eb; try discriminate Hi.
  assert (b < length h) by (eapply lookup_lt_Some, Eb).
  exists (S (length h)). eexists.
  split; [apply setattr_Ok, lookup_app_l_Some, Eb|]. split; [|split].
  - eapply getattr_Ok; [|apply lookup_singleton_eq].
    rewrite list_lookup_insert_ne by lia. now apply list_lookup_middle.
  - unfold list_items. rewrite list_lookup_insert_ne by lia.
    rewrite lookup_app_r by lia.
    now replace (S (length h) - length h) with 1 by lia.
  - eapply getattr_Ok; [eapply lookup_set, lookup_app_l_Some, Eb|].
    apply lookup_insert_eq.
Qed.

(** ** The loop of [EFBMsgTargetSubstitution], entry by entry *)

Section entries.

Implicit Types (h : heap) (entries : list (pyval * pyval)) (i : pyval).

Lemma py_eqb_key_refl i :
  EFBMsgTargetSubstitution.key_ok i = true -> py_eqb i i = true.
Proof.
  intros (a & b & x & y & -> & Ea & Eb & _)%key_ok_inv.
  assert (R : forall v z, int_value v = Some z -> py_eqb v v = true).
  { intros v z Ev. destruct v; try discriminate Ev; simpl.
    - destruct b0; apply Z.eqb_refl.
    - apply Z.eqb_refl. }
  cbn [py_eqb]. now rewrite (R a x Ea), (R b y Eb).
Qed.

(** An accepted key of the dict has a value in it. *)
Lemma assoc_key entries i :
  EFBMsgTargetSubstitution.key_ok i = true ->
  i ∈ map fst entries -> exists v, assoc i entries = Some v.
Proof.
  intros Hi%py_eqb_key_refl. induction entries as [|[k v] entries IH].
  - intros []%elem_of_nil.
  - cbn [map fst assoc]. intros [<-|Hin]%elem_of_cons.
    + rewrite Hi. eauto.
    + destruct (py_eqb k i); eauto.
Qed.

Lemma getattr_Ok_inv v name h x h' :
  getattr v name h = Ok (x, h') -> h' = h.
Proof.
  unfold getattr. destruct v as [| | | | | | | |a]; try discriminate.
  destruct (h !! a) as [[| |c attrs]|]; try discriminate.
  destruct (attrs !! name); [|discriminate]. now intros [= _ <-].
Qed.

Lemma getattr_Raise_inv v name h e :
  getattr v name h = Raise e -> e = AttributeError name.
Proof.
  unfold getattr. destruct v as [| | | | | | | |a]; try (now intros [= <-]).
  destruct (h !! a) as [[| |c attrs]|]; try (now intros [= <-]).
  destruct (attrs !! name); [discriminate|]. now intros [= <-].
Qed.

Lemma percent_TypeError template i h :
  exists msg,
    (msg <- percent template i ;; @raise unit (TypeError msg)) h
    = Raise (TypeError msg).
Proof.
  unfold bind, percent.
  destruct (_ =? _); [now eexists|]. destruct (_ <? _); now eexists.
Qed.

(** One turn of the loop, on an entry that passes and on one that does
    not. *)
Lemma check_entry_ok substitutions h entries i keys :
  dict_entries h substitutions = entries ->
  entry_ok h entries i = true ->
  EFBMsgTargetSubstitution.check substitutions (i :: keys) h
  = EFBMsgTargetSubstitution.check substitutions keys h.
Proof.
  intros Hent Hok. unfold entry_ok in Hok.
  apply andb_prop in Hok as [Hkey Hok].
  destruct (assoc i entries) as [v|] eqn:Ev; [|discriminate Hok].
  apply andb_prop in Hok as [Hinst Hok].
  unfold read_attr in Hok.
  destruct (getattr v "is_chat" h) as [[is_chat h1] | e] eqn:Eic;
    [|discriminate Hok].
  apply getattr_Ok_inv in Eic as Hh1. subst h1.
  cbn [EFBMsgTargetSubstitution.check]. rewrite Hkey. cbn [negb].
  unfold bind at 1, dict_getitem. rewrite Hent, Ev.
  unfold bind at 1, get_heap. rewrite Hinst. cbn [negb].
  unfold bind at 1, dict_getitem. rewrite Hent, Ev.
  unfold bind at 1. rewrite Eic.
  destruct (truthy h is_chat).
  - destruct (getattr v "chat_type" h) as [[chat_type h1] | e] eqn:Ect;
      [|discriminate Hok].
    apply getattr_Ok_inv in Ect as Hh1. subst h1.
    unfold bind at 1 2, dict_getitem. rewrite Hent, Ev.
    unfold bind at 1. rewrite Ect. unfold ret.
    apply negb_true_iff in Hok. now rewrite Hok.
  - reflexivity.
Qed.

Lemma check_entry_not_ok substitutions h entries i keys :
  dict_entries h substitutions = entries ->
  i ∈ map fst entries ->
  entry_ok h entries i = false ->
  exists e,
    EFBMsgTargetSubstitution.check substitutions (i :: keys) h = Raise e /\
    TypeError_or_AttributeError e.
Proof.
  intros Hent Hin Hok. unfold entry_ok in Hok.
  cbn [EFBMsgTargetSubstitution.check].
  destruct (EFBMsgTargetSubstitution.key_ok i) eqn:Hkey; cbn [negb].
  2:{ destruct (percent_TypeError
        "Substitution %s's index must be a tuple of 2 integers where the first one is lessthan the second one."
        i h) as [msg E].
      rewrite E. now eexists. }
  destruct (assoc_key entries i Hkey Hin) as [v Ev].
  rewrite Ev in Hok. cbn [andb] in Hok.
  unfold bind at 1, dict_getitem. rewrite Hent, Ev.
  unfold bind at 1, get_heap.
  destruct (isinstance h v EFBMsg); cbn [negb andb] in *.
  2:{ destruct (percent_TypeError
        "Substitution %s is not a message object." i h) as [msg E].
      rewrite E. now eexists. }
  unfold bind at 1, dict_getitem. rewrite Hent, Ev.
  unfold bind at 1. unfold read_attr in Hok.
  destruct (getattr v "is_chat" h) as [[is_chat h1] | e] eqn:Eic.
  2:{ apply getattr_Raise_inv in Eic as ->. now eexists. }
  apply getattr_Ok_inv in Eic as Hh1. subst h1.
  destruct (truthy h is_chat); [|discriminate Hok].
  unfold bind at 1 2, dict_getitem. rewrite Hent, Ev.
  unfold bind at 1.
  destruct (getattr v "chat_type" h) as [[chat_type h1] | e] eqn:Ect.
  2:{ apply getattr_Raise_inv in Ect as ->. now eexists. }
  apply getattr_Ok_inv in Ect as Hh1. subst h1. unfold ret.
  apply negb_false_iff in Hok. rewrite Hok.
  unfold bind. rewrite percent_pair by done. now eexists.
Qed.

(** The loop over keys of the dict: it returns when every entry passes,
    and fails otherwise. *)
Lemma check_result substitutions h entries keys :
  dict_entries h substitutions = entries ->
  (forall i, i ∈ keys -> i ∈ map fst entries) ->
  if forallb (entry_ok h entries) keys
  then EFBMsgTargetSubstitution.check substitutions keys h = Ok (tt, h)
  else
    exists e,
      EFBMsgTargetSubstitution.check substitutions keys h = Raise e /\
      TypeError_or_AttributeError e.
Proof.
  intros Hent. induction keys as [|i keys IH]; intros Hsub; [reflexivity|].
  cbn [forallb]. destruct (entry_ok h entries i) eqn:Hi; cbn [andb].
  - rewrite (check_entry_ok substitutions h entries i keys Hent Hi).
    apply IH. intros j Hj. apply Hsub. now right.
  - apply (check_entry_not_ok substitutions h entries i keys Hent); [|exact Hi].
    apply Hsub. now left.
Qed.

Lemma truthy_new h c attrs v :
  truthy (h ++ [OInst c attrs]) v = truthy h v.
Proof.
  destruct v as [| | | | | | | |a]; try reflexivity.
  unfold truthy. rewrite lookup_ext.
  destruct (h !! a); [done|]. now case_decide.
Qed.

Lemma read_attr_new h c v name :
  read_attr (h ++ [OInst c ∅]) v name = read_attr h v name.
Proof.
  destruct v as [| | | | | | | |a]; try reflexivity.
  unfold read_attr, getattr. rewrite lookup_ext.
  destruct (h !! a) as [[| |c' attrs]|]; try reflexivity.
  - now destruct (attrs !! name).
  - now case_decide.
Qed.

Lemma entry_ok_new h entries i :
  entry_ok (h ++ [OInst EFBMsgTargetSubstitution ∅]) entries i
  = entry_ok h entries i.
Proof.
  unfold entry_ok. destruct (assoc i entries) as [v|]; [|reflexivity].
  rewrite isinstance_new, !read_attr_new by reflexivity.
  destruct (read_attr h v "is_chat") as [is_chat|]; [|reflexivity].
  now rewrite truthy_new.
Qed.

Lemma forallb_entry_ok_new h entries keys :
  forallb (entry_ok (h ++ [OInst EFBMsgTargetSubstitution ∅]) entries) keys
  = forallb (entry_ok h entries) keys.
Proof.
  induction keys as [|i keys IH]; [reflexivity|].
  cbn [forallb]. now rewrite IH, entry_ok_new.
Qed.

(** The class call, in the store the caller had. *)
Lemma EFBMsgTargetSubstitution_new_result h substitutions :
  if isinstance_dict h substitutions
     && forallb (entry_ok h (dict_entries h substitutions))
          (map fst (dict_entries h substitutions))
  then
    EFBMsgTargetSubstitution.new substitutions h
    = Ok (VRef (length h),
          h ++ [OInst EFBMsgTargetSubstitution
                  {["substitutions" := substitutions]}])
  else
    exists e,
      EFBMsgTargetSubstitution.new substitutions h = Raise e /\
      TypeError_or_AttributeError e.
Proof.
  pose (h0 := h ++ [OInst EFBMsgTargetSubstitution ∅]).
  assert (Hcheck := check_result substitutions h0
            (dict_entries h substitutions)
            (map fst (dict_entries h substitutions))
            (dict_entries_new _ _ _ _) (fun i Hi => Hi)).
  unfold h0 in Hcheck at 1. rewrite forallb_entry_ok_new in Hcheck.
  unfold EFBMsgTargetSubstitution.new.
  destruct (isinstance_dict h substitutions) eqn:Hd; cbn [andb].
  - destruct (forallb _ _).
    + apply instantiate_Ok; [reflexivity|].
      unfold EFBMsgTargetSubstitution.__init__, bind at 1, get_heap.
      rewrite isinstance_dict_new, dict_entries_new, Hd. cbn [negb].
      fold h0. erewrite bind_Ok by exact Hcheck.
      erewrite setattr_Ok by apply lookup_new.
      replace (length h) with (length h + 0) at 1 by lia.
      unfold h0. rewrite insert_app_r. simpl. now rewrite insert_empty.
    + destruct Hcheck as (e & E & He). exists e. split; [|exact He].
      apply instantiate_Raise; [reflexivity|].
      unfold EFBMsgTargetSubstitution.__init__, bind at 1, get_heap.
      rewrite isinstance_dict_new, dict_entries_new, Hd. cbn [negb].
      fold h0. unfold bind. now rewrite E.
  - exists (TypeError "Substitutions must be a dict."). split; [|exact I].
    apply instantiate_Raise; [reflexivity|].
    unfold EFBMsgTargetSubstitution.__init__, bind at 1, get_heap.
    now rewrite isinstance_dict_new, Hd.
Qed.

End entries.

(** X10: a substitution target holds the dict it was given, not a copy.
    The keys are looked at once, when the target is made: a change of the
    caller's dict afterwards is the change of the mapping the target
    holds, whatever entries it puts there. *)
Theorem EFBMsgTargetSubstitution_shares_mapping
  (h : heap) (substitutions : pyval) (self : addr) (h' : heap)
  (f : list (pyval * pyval) -> list (pyval * pyval)) :
  EFBMsgTargetSubstitution.new substitutions h = Ok (VRef self, h') ->
  exists d h'',
    substitutions = VRef d /\
    dict_update d f h' = Ok (tt, h'') /\
    getattr (VRef self) "substitutions" h'' = Ok (VRef d, h'') /\
    dict_entries h'' (VRef d) = f (dict_entries h substitutions).
Proof.
  intros (d & entries & -> & Ed & [= -> ->] & _)
    %EFBMsgTargetSubstitution_new_inv.
  assert (d <> length h) by (eapply old_is_not_new, Ed).
  exists d. eexists. split; [reflexivity|].
  split; [apply dict_update_Ok, lookup_app_l_Some, Ed|]. split.
  - eapply getattr_Ok;
      [rewrite list_lookup_insert_ne by done; apply lookup_new|].
    apply lookup_singleton_eq.
  - unfold dict_entries. rewrite Ed.
    erewrite lookup_set by apply lookup_app_l_Some, Ed. reflexivity.
Qed.

(** X11: the mappings a substitution target is made from.  The
    construction returns exactly when the argument is a dict and every
    entry passes: its key is a pair of integers in increasing order, its
    value is an [EFBMsg] that has an [is_chat] attribute, and, when
    [is_chat] is true, a [chat_type] attribute other than
    [ChatType.Group].  When [is_chat] is false [chat_type] is not read. *)
Theorem EFBMsgTargetSubstitution_new_accepts
  (h : heap) (substitutions : pyval) :
  (exists r, EFBMsgTargetSubstitution.new substitutions h = Ok r) <->
  isinstance_dict h substitutions = true /\
  forallb (entry_ok h (dict_entries h substitutions))
    (map fst (dict_entries h substitutions)) = true.
Proof.
  assert (H := EFBMsgTargetSubstitution_new_result h substitutions).
  split.
  - intros [r E]. destruct (_ && _) eqn:Hc.
    + now apply andb_prop in Hc.
    + destruct H as (e & E' & _). congruence.
  - intros [Hd Hall]. rewrite Hd, Hall in H. cbn [andb] in H. eauto.
Qed.

(** X12: a substitution target that is not made fails with [TypeError] or
    with [AttributeError], and with nothing else: no [ValueError], and no
    [KeyError] from reading the dict by its own keys. *)
Theorem EFBMsgTargetSubstitution_new_errors
  (h : heap) (substitutions : pyval) (e : exn) :
  EFBMsgTargetSubstitution.new substitutions h = Raise e ->
  TypeError_or_AttributeError e.
Proof.
  intros E. assert (H := EFBMsgTargetSubstitution_new_result h substitutions).
  destruct (_ && _).
  - congruence.
  - destruct H as (e' & E' & He). congruence.
Qed.

Lemma bind_Raise {A B} (m : M A) (k : A -> M B) (h : heap) e :
  m h = Raise e -> bind m k h = Raise e.
Proof. intros E. unfold bind. now rewrite E. Qed.

(** A value that is a message without [is_chat]. *)
Lemma check_no_is_chat (h : heap) substitutions entries i v keys :
  dict_entries h substitutions = entries ->
  EFBMsgTargetSubstitution.key_ok i = true ->
  assoc i entries = Some v ->
  isinstance h v EFBMsg = true ->
  read_attr h v "is_chat" = None ->
  EFBMsgTargetSubstitution.check substitutions (i :: keys) h
  = Raise (AttributeError "is_chat").
Proof.
  intros Hent Hkey Ev Hinst Hic.
  cbn [EFBMsgTargetSubstitution.check]. rewrite Hkey. cbn [negb].
  unfold bind at 1, dict_getitem. rewrite Hent, Ev.
  unfold bind at 1, get_heap. rewrite Hinst. cbn [negb].
  unfold bind at 1, dict_getitem. rewrite Hent, Ev.
  unfold bind at 1. unfold read_attr in Hic.
  destruct (getattr v "is_chat" h) as [[x h1] | e] eqn:E; [discriminate Hic|].
  now apply getattr_Raise_inv in E as ->.
Qed.

(** X13: a message as [EFBMsg()] makes it is not accepted as the value of
    a substitution.  For every range [(start, end)] with [start < end],
    in every store, [EFBMsgTargetSubstitution({(start, end): EFBMsg()})]
    fails with [AttributeError] on [is_chat], an attribute [EFBMsg] does
    not set. *)
Theorem EFBMsgTargetSubstitution_rejects_new_message
  (h : heap) (start end_ : Z) :
  (start < end_)%Z ->
  substitution_of EFBMsg.new start end_ h = Raise (AttributeError "is_chat").
Proof.
  intros Hlt. unfold substitution_of.
  erewrite bind_Ok by apply EFBMsg_new_Ok.
  unfold dict_of_range, bind at 1 2, alloc, ret.
  set (o := OInst EFBMsg (EFBMsg_defaults (VRef (S (length h))) ∅)).
  set (key := VTuple [VInt start; VInt end_]).
  set (h1 := h ++ [o; ODict []]).
  set (h2 := h1 ++ [ODict [(key, VRef (length h))]]).
  assert (Eo : h2 !! length h = Some o).
  { unfold h2. apply lookup_app_l_Some. now apply list_lookup_middle. }
  assert (Ed : h2 !! length h1 = Some (ODict [(key, VRef (length h))]))
    by apply lookup_new.
  unfold EFBMsgTargetSubstitution.new.
  apply instantiate_Raise; [reflexivity|].
  unfold EFBMsgTargetSubstitution.__init__, bind at 1, get_heap.
  rewrite isinstance_dict_new, dict_entries_new.
  unfold isinstance_dict, dict_entries at 1. rewrite Ed. cbn [negb map fst].
  erewrite bind_Raise; [reflexivity|].
  eapply check_no_is_chat.
  - rewrite dict_entries_new. unfold dict_entries. now rewrite Ed.
  - unfold key. cbn. now apply Z.ltb_lt.
  - unfold key. cbn [assoc py_eqb int_value andb]. now rewrite !Z.eqb_refl.
  - rewrite isinstance_new by reflexivity. unfold isinstance. now rewrite Eo.
  - rewrite read_attr_new. unfold read_attr, getattr. now rewrite Eo.
Qed.

(** ** The further theorems at concrete inputs *)

(** [EFBMsgCommand("Vote", "vote", [1], {})] leaves the list and the dict
    as they were. *)
Lemma construction_changes_no_object_witness :
  let h := [OList [VInt 1]; ODict []] in
  match
    run (Call_EFBMsgCommand (VStr "Vote") (VStr "vote") (VRef 0) (VRef 1)) h
  with
  | Ok (v, h') => h' !! 0 = Some (OList [VInt 1]) /\ h' !! 1 = Some (ODict [])
  | Raise _ => False
  end.
Proof.
  intros h. destruct (run _ h) as [[v h'] | e] eqn:E.
  - split; apply (construction_changes_no_object _ h v h' E); reflexivity.
  - vm_compute in E. discriminate E.
Defined.

(** [EFBMsgStatusAttribute("TYPING")] *)
Lemma construction_returns_new_instance_witness :
  match run (Call_EFBMsgStatusAttribute EFBMsgStatusAttribute.TYPING) [] with
  | Ok (v, h') =>
      exists self,
        v = VRef self /\ [] !! self = @None pyobj /\
        isinstance h' v EFBMsgStatusAttribute = true /\
        EFBMsgStatusAttribute <> EFBMsgAttribute /\
        EFBMsgStatusAttribute <> EFBMsgTarget /\
        (forall b, base EFBMsgStatusAttribute = Some b ->
                   isinstance h' v b = true) /\
        isinstance h' v EFBMsgAttribute && isinstance h' v EFBMsgTarget
        = false
  | Raise _ => False
  end.
Proof.
  destruct (run _ []) as [[v h'] | e] eqn:E.
  - exact (construction_returns_new_instance _ [] v h' E).
  - vm_compute in E. discriminate E.
Defined.

(** A reply to a message whose text is set afterwards. *)
Lemma EFBMsgTargetMessage_shares_message_witness :
  let h := [OInst EFBMsg {["text" := VStr ""]}] in
  h !! 0 = Some (OInst EFBMsg {["text" := VStr ""]}) /\
  exists target h' h'',
    EFBMsgTargetMessage.new (VRef 0) h = Ok (VRef target, h') /\
    setattr 0 "text" (VStr "hello") h' = Ok (tt, h'') /\
    getattr (VRef target) "message" h'' = Ok (VRef 0, h'') /\
    getattr (VRef 0) "text" h'' = Ok (VStr "hello", h'').
Proof.
  intros h. split; [reflexivity|].
  now apply (EFBMsgTargetMessage_shares_message
               h 0 EFBMsg {["text" := VStr ""]} "text" (VStr "hello")).
Defined.

(** [EFBMsgCommandAttribute([EFBMsgCommand("Vote", "vote")])] *)
Lemma EFBMsgCommandAttribute_accepts_new_command_witness :
  is_None VNone || isinstance_list [] VNone = true /\
  is_None VNone || isinstance_dict [] VNone = true /\
  exists command h1 attribute h2 c,
    EFBMsgCommand.new (VStr "Vote") (VStr "vote") VNone VNone []
    = Ok (VRef command, h1) /\
    (l <- alloc (OList [VRef command]) ;;
     EFBMsgCommandAttribute.new (VRef l)) h1
    = Ok (VRef attribute, h2) /\
    getattr (VRef attribute) "commands" h2 = Ok (VRef c, h2) /\
    h2 !! c = Some (OList [VRef command]) /\
    getattr (VRef command) "name" h2 = Ok (VStr "Vote", h2).
Proof.
  split; [reflexivity|]. split; [reflexivity|].
  now apply (EFBMsgCommandAttribute_accepts_new_command
               [] "Vote" "vote" VNone VNone).
Defined.

(** A command renamed after the attribute was made. *)
Lemma EFBMsgCommandAttribute_shares_commands_witness :
  let h := [OInst EFBMsgCommand {["name" := VStr "Vote"]}; OList [VRef 0]] in
  let h' := h ++ [OInst EFBMsgCommandAttribute {["commands" := VRef 3]};
                  OList [VRef 0]] in
  EFBMsgCommandAttribute.new (VRef 1) h = Ok (VRef 2, h') /\
  VRef 0 ∈ list_items h (VRef 1) /\
  exists c h'',
    setattr 0 "name" (VStr "Poll") h' = Ok (tt, h'') /\
    getattr (VRef 2) "commands" h'' = Ok (VRef c, h'') /\
    VRef 0 ∈ list_items h'' (VRef c) /\
    getattr (VRef 0) "name" h'' = Ok (VStr "Poll", h'').
Proof.
  intros h h'.
  assert (E : EFBMsgCommandAttribute.new (VRef 1) h = Ok (VRef 2, h'))
    by (vm_compute; reflexivity).
  assert (Hin : VRef 0 ∈ list_items h (VRef 1)) by apply list_elem_of_here.
  split; [exact E|]. split; [exact Hin|].
  exact (EFBMsgCommandAttribute_shares_commands
           h (VRef 1) 2 h' 0 "name" (VStr "Poll") E Hin).
Defined.

(** An entry with the key [(5, 0)] and the value [None], put in the dict
    after the target was made. *)
Lemma EFBMsgTargetSubstitution_shares_mapping_witness :
  let h := [ODict []] in
  let h' := h ++ [OInst EFBMsgTargetSubstitution
                    {["substitutions" := VRef 0]}] in
  let f := fun _ : list (pyval * pyval) =>
             [(VTuple [VInt 5; VInt 0], VNone)] in
  EFBMsgTargetSubstitution.new (VRef 0) h = Ok (VRef 1, h') /\
  exists d h'',
    VRef 0 = VRef d /\
    dict_update d f h' = Ok (tt, h'') /\
    getattr (VRef 1) "substitutions" h'' = Ok (VRef d, h'') /\
    dict_entries h'' (VRef d) = f (dict_entries h (VRef 0)).
Proof.
  intros h h' f.
  assert (E : EFBMsgTargetSubstitution.new (VRef 0) h = Ok (VRef 1, h'))
    by (vm_compute; reflexivity).
  split; [exact E|].
  exact (EFBMsgTargetSubstitution_shares_mapping h (VRef 0) 1 h' f E).
Defined.

(** [EFBMsgTargetSubstitution(None)] *)
Lemma EFBMsgTargetSubstitution_new_errors_witness :
  EFBMsgTargetSubstitution.new VNone []
  = Raise (TypeError "Substitutions must be a dict.") /\
  TypeError_or_AttributeError (TypeError "Substitutions must be a dict.").
Proof.
  assert (E : EFBMsgTargetSubstitution.new VNone []
              = Raise (TypeError "Substitutions must be a dict."))
    by reflexivity.
  split; [exact E|].
  exact (EFBMsgTargetSubstitution_new_errors [] VNone _ E).
Defined.

(** [EFBMsgTargetSubstitution({(0, 5): EFBMsg()})] *)
Lemma EFBMsgTargetSubstitution_rejects_new_message_witness :
  (0 < 5)%Z /\
  substitution_of EFBMsg.new 0 5 [] = Raise (AttributeError "is_chat").
Proof.
  assert (H : (0 < 5)%Z) by reflexivity.
  split; [exact H|].
  exact (EFBMsgTargetSubstitution_rejects_new_message [] 0 5 H).
Defined.
